(** * Anti-Lyin-Lion: the emotion-analysis backend ([backend/main.py])

    A shallow embedding of the request pipeline of [backend/main.py]:
    synonym resolution, query formulation, literature search, emotion
    aggregation and report composition, followed by the properties proved
    of it.

    Modelling conventions.
    - Python [str] is [string]; one [ascii] stands for one code point, so
      the model covers text whose code points are below 256.
    - Python [float] is the kernel's binary64 [float]; comparisons and
      arithmetic are the IEEE ones the interpreter performs.
    - Python [int] is [Z].
    - The models and network services the module calls (WordNet, the
      sentence encoder, the two classifiers, KeyBERT, the HTTP client) are
      fields of a record [Collaborators]; every call is recorded in a trace.
    - A Python [set] is its duplicate-free insertion sequence; the order in
      which it is iterated is a collaborator too ([set_iter]), because it
      depends on string hashes. *)

From Stdlib Require Import ZArith List Bool Lia Floats Ascii String.
From Stdlib Require Import Permutation Sorted.
Import ListNotations.

Set Warnings "-inexact-float,-register-all".
Set Implicit Arguments.

Local Open Scope string_scope.
Local Open Scope list_scope.

(* ================================================================= *)
(** * Part I: the embedding *)
(* ================================================================= *)

(* ----------------------------------------------------------------- *)
(** ** Python strings *)

Module PyStr.

(** [c.lower()] on a code point below 256: the ASCII capitals and the
    Latin-1 capitals 192..222 (215, the multiplication sign, excepted)
    move up by 32. *)
Definition is_upper (c : ascii) : bool :=
  let n := nat_of_ascii c in
  ((65 <=? n) && (n <=? 90)
   || (192 <=? n) && (n <=? 222) && negb (n =? 215))%nat.

Definition lower_char (c : ascii) : ascii :=
  if is_upper c then ascii_of_nat (nat_of_ascii c + 32) else c.

(** [s.lower()] *)
Fixpoint lower (s : string) : string :=
  match s with
  | EmptyString => EmptyString
  | String c s' => String (lower_char c) (lower s')
  end.

(** [c.isspace()] on a code point below 256. *)
Definition is_space (c : ascii) : bool :=
  let n := nat_of_ascii c in
  ((9 <=? n) && (n <=? 13) || (28 <=? n) && (n <=? 32)
   || (n =? 133) || (n =? 160))%nat.

Fixpoint lstrip (s : string) : string :=
  match s with
  | EmptyString => EmptyString
  | String c s' => if is_space c then lstrip s' else s
  end.

Fixpoint rstrip (s : string) : string :=
  match s with
  | EmptyString => EmptyString
  | String c s' =>
      match rstrip s' with
      | EmptyString => if is_space c then EmptyString else String c EmptyString
      | r => String c r
      end
  end.

(** [s.strip()] *)
Definition strip (s : string) : string := rstrip (lstrip s).

(** [s.replace(a, b)] for one-character [a] and [b]. *)
Fixpoint replace (a b : ascii) (s : string) : string :=
  match s with
  | EmptyString => EmptyString
  | String c s' => String (if Ascii.eqb c a then b else c) (replace a b s')
  end.

(** [s.startswith(p)] *)
Fixpoint startswith (p s : string) : bool :=
  match p, s with
  | EmptyString, _ => true
  | String _ _, EmptyString => false
  | String a p', String b s' => Ascii.eqb a b && startswith p' s'
  end.

(** [needle in hay] *)
Fixpoint contains (needle hay : string) : bool :=
  startswith needle hay
  || match hay with
     | EmptyString => false
     | String _ hay' => contains needle hay'
     end.

(** [sep.join(l)] *)
Definition join (sep : string) (l : list string) : string :=
  String.concat sep l.

(** [s[:n]] *)
Definition slice_to (n : nat) (s : string) : string := String.substring 0 n s.

(** A string is case-normalized when lower-casing leaves it unchanged. *)
Definition case_normalized (s : string) : Prop := lower s = s.

Definition mem (x : string) (l : list string) : bool :=
  existsb (String.eqb x) l.

End PyStr.

(* ----------------------------------------------------------------- *)
(** ** Python floats *)

Module PyFloat.

(** The order of the non-NaN binary64 values, read off their
    sign/exponent/mantissa decomposition: a value is ranked by a triple
    compared lexicographically. *)
Definition rank : Type := (Z * Z * Z)%type.

Definition SFrank (f : spec_float) : option rank :=
  match f with
  | S754_nan => None
  | S754_infinity true => Some (-2, 0, 0)%Z
  | S754_infinity false => Some (2, 0, 0)%Z
  | S754_zero _ => Some (0, 0, 0)%Z
  | S754_finite true m e => Some (-1, - e, Z.neg m)%Z
  | S754_finite false m e => Some (1, e, Z.pos m)%Z
  end.

Definition lex_compare (r1 r2 : rank) : comparison :=
  let '(a1, b1, c1) := r1 in
  let '(a2, b2, c2) := r2 in
  match (a1 ?= a2)%Z with
  | Eq => match (b1 ?= b2)%Z with
          | Eq => (c1 ?= c2)%Z
          | c => c
          end
  | c => c
  end.

Definition lex_lt (r1 r2 : rank) : Prop :=
  let '(a1, b1, c1) := r1 in
  let '(a2, b2, c2) := r2 in
  (a1 < a2 \/ (a1 = a2 /\ (b1 < b2 \/ (b1 = b2 /\ c1 < c2))))%Z.

Definition frank (x : float) : option rank := SFrank (Prim2SF x).

Definition cmpb (want : comparison -> bool) (x y : float) : bool :=
  match frank x, frank y with
  | Some r1, Some r2 => want (lex_compare r1 r2)
  | _, _ => false
  end.

(** An integer as an (unnormalized) binary float with exponent 0. *)
Definition Z2SF (z : Z) : spec_float :=
  match z with
  | Z0 => S754_zero false
  | Zpos p => S754_finite false p 0
  | Zneg p => S754_finite true p 0
  end.

(** [a / b] on two [int]s with [b <> 0]: the quotient correctly rounded
    to binary64 (round to nearest, ties to even). *)
Definition int_truediv (a b : Z) : float :=
  SF2Prim (SFdiv prec emax (Z2SF a) (Z2SF b)).

(** [num / den] rounded to the nearest integer, ties to the even one
    ([den > 0], [num >= 0]). *)
Definition round_half_even (num den : Z) : Z :=
  let q := (num / den)%Z in
  let r := (num mod den)%Z in
  match (2 * r ?= den)%Z with
  | Lt => q
  | Gt => (q + 1)%Z
  | Eq => if Z.even q then q else (q + 1)%Z
  end.

(** [round(x, ndigits)] for a float [x] and a small [ndigits >= 0].
    CPython prints the exact binary value of [x] correctly rounded to
    [ndigits] decimals (ties to even) and reads the decimal back
    correctly rounded; infinities, NaN and zeros are returned as they
    are. *)
Definition round (x : float) (ndigits : nat) : float :=
  match Prim2SF x with
  | S754_finite s m e =>
      let p := Z.to_pos (10 ^ Z.of_nat ndigits) in
      let k := if (0 <=? e)%Z
               then (Z.pos m * 2 ^ e * Z.pos p)%Z
               else round_half_even (Z.pos m * Z.pos p) (2 ^ (- e)) in
      match k with
      | Zpos k' =>
          SF2Prim (SFdiv prec emax (S754_finite s k' 0) (S754_finite false p 0))
      | _ => if s then (-0)%float else 0%float
      end
  | _ => x
  end.

End PyFloat.

(* ----------------------------------------------------------------- *)
(** ** [sorted], [set] and [dict] *)

Module PyList.

Section Sorted.
Variable A : Type.
(** [lt a b] is [key(a) < key(b)]. *)
Variable lt : A -> A -> bool.

(** [list.sort] compares keys with [<] only and is stable; on the short
    lists handled here it is a binary insertion sort, which puts an
    element after every earlier one that is not greater. *)
Fixpoint insert (x : A) (l : list A) : list A :=
  match l with
  | [] => [x]
  | y :: l' => if lt x y then x :: y :: l' else y :: insert x l'
  end.

Definition sort (l : list A) : list A :=
  fold_left (fun acc x => insert x acc) l [].

(** [sorted(l, key=..., reverse=...)]: with [reverse=True] the list is
    reversed, sorted and reversed again, so that equal keys keep their
    original order. *)
Definition sorted (reverse : bool) (l : list A) : list A :=
  if reverse then rev (sort (rev l)) else sort l.

(** [a] may stand before [b] in ascending order: [b] is not less. *)
Definition ascending (a b : A) : Prop := lt b a = false.
(** [a] may stand before [b] in descending order: [a] is not less. *)
Definition descending (a b : A) : Prop := lt a b = false.
(** [a] and [b] have equal keys: neither is less. *)
Definition same_key (a b : A) : bool := negb (lt a b) && negb (lt b a).
End Sorted.

(** A [set] of strings, as the sequence of its distinct elements in
    insertion order. *)
Definition set_add (s : list string) (x : string) : list string :=
  if PyStr.mem x s then s else s ++ [x].

(** [s.update(l)] *)
Definition set_update (s : list string) (l : list string) : list string :=
  fold_left set_add l s.

(** [d[k] = v] on a [dict] kept as an association list in insertion
    order: an existing key keeps its place and takes the new value. *)
Fixpoint dict_set {V : Type} (d : list (string * V)) (k : string) (v : V)
  : list (string * V) :=
  match d with
  | [] => [(k, v)]
  | (k', v') :: d' =>
      if String.eqb k k' then (k', v) :: d' else (k', v') :: dict_set d' k v
  end.

(** [d.get(k, default)] *)
Fixpoint dict_get {V : Type} (d : list (string * V)) (k : string) (default : V) : V :=
  match d with
  | [] => default
  | (k', v') :: d' => if String.eqb k k' then v' else dict_get d' k default
  end.

(** [dict.fromkeys(l)] *)
Definition dict_fromkeys (l : list string) : list (string * unit) :=
  fold_left (fun d k => dict_set d k tt) l [].

(** [list(d)] *)
Definition dict_keys {V : Type} (d : list (string * V)) : list string :=
  map fst d.

End PyList.

(* ----------------------------------------------------------------- *)
(** ** Values, exceptions and the call trace *)

(** A Python value as [json] produces it. The keys of a [PDict] are
    pairwise distinct, as in any [dict]. *)
Inductive pyval : Type :=
| PNone
| PBool (b : bool)
| PInt (n : Z)
| PFloat (f : float)
| PStr (s : string)
| PList (l : list pyval)
| PDict (d : list (string * pyval)).

(** [type(v).__name__] *)
Definition type_name (v : pyval) : string :=
  match v with
  | PNone => "NoneType"
  | PBool _ => "bool"
  | PInt _ => "int"
  | PFloat _ => "float"
  | PStr _ => "str"
  | PList _ => "list"
  | PDict _ => "dict"
  end.

(** The exceptions the module tells apart: [requests.RequestException]
    (with its subclasses) and every other subclass of [Exception], kept by
    class name. Both carry [str(e)]. *)
Inductive exn : Type :=
| RequestException (msg : string)
| Exception (cls : string) (msg : string).

Definition str_exn (e : exn) : string :=
  match e with
  | RequestException msg => msg
  | Exception _ msg => msg
  end.

Inductive result (A : Type) : Type :=
| Ok (a : A)
| Raise (e : exn).
Arguments Ok {A} a.
Arguments Raise {A} e.

(** Sequencing of steps that may raise and touch nothing else. *)
Definition rbind {A B} (r : result A) (k : A -> result B) : result B :=
  match r with
  | Ok a => k a
  | Raise e => Raise e
  end.

(** What the module does to the outside world, in order. *)
Inductive event : Type :=
| EvWordnet (word : string)                   (* wordnet.synsets(word) *)
| EvEncode (sentences : list string)          (* model.encode(sentences) *)
| EvHttpGet (url : string) (query : string) (fields : string) (limit : Z)
| EvClassify (text : string)                  (* emotion_classifier(text) *)
| EvSentiment (text : string)                 (* sentiment_analyzer(text) *)
| EvKeywords (text : string)                  (* kw_model.extract_keywords *)
| EvPrint (line : string).

Definition trace : Type := list event.

(** Computations that may raise and that extend the trace. *)
Definition M (A : Type) : Type := trace -> result A * trace.

Definition ret {A} (a : A) : M A := fun t => (Ok a, t).

Definition bind {A B} (m : M A) (k : A -> M B) : M B :=
  fun t =>
    match m t with
    | (Ok a, t') => k a t'
    | (Raise e, t') => (Raise e, t')
    end.

Definition raise {A} (e : exn) : M A := fun t => (Raise e, t).

Definition emit (ev : event) : M unit := fun t => (Ok tt, t ++ [ev]).

Definition lift {A} (r : result A) : M A := fun t => (r, t).

(** [try: m  except <classes accepted by catches> as e: handler e] *)
Definition try_except {A} (m : M A) (catches : exn -> bool) (handler : exn -> M A) : M A :=
  fun t =>
    match m t with
    | (Ok a, t') => (Ok a, t')
    | (Raise e, t') => if catches e then handler e t' else (Raise e, t')
    end.

Declare Scope py_scope.
Delimit Scope py_scope with py.
Notation "x <- m ;; k" := (bind m (fun x => k))
  (at level 100, m at next level, right associativity) : py_scope.
Notation "m ;;; k" := (bind m (fun _ => k))
  (at level 100, right associativity) : py_scope.
Notation "x <~ r ;; k" := (rbind r (fun x => k))
  (at level 100, r at next level, right associativity) : py_scope.
Local Open Scope py_scope.

(** A call to a collaborator: the call is recorded, then it answers. *)
Definition call {A} (ev : event) (answer : result A) : M A :=
  emit ev ;;; lift answer.

Definition print (line : string) : M unit := emit (EvPrint line).

Definition is_RequestException (e : exn) : bool :=
  match e with RequestException _ => true | _ => false end.

Definition is_Exception (e : exn) : bool := true.

(* ----------------------------------------------------------------- *)
(** ** Data of the module and its collaborators *)

(** One entry of the emotion classifier's output: [{'label':…, 'score':…}]. *)
Record EmotionScore : Type := { label : string; score : float }.

(** What [requests.get] does: it fails (connection error, timeout, …) or
    yields a response with a status code and a body; [json_body] is [None]
    when the body is not JSON, and the decoded value otherwise. *)
Inductive http_reply : Type :=
| TransportFailure (msg : string)
| Response (status_code : Z) (json_body : option pyval).

Record Collaborators : Type := {
  (** [os.getenv("API_KEY")] *)
  api_key_env : option string;
  (** [[lemma.name() for syn in wordnet.synsets(word) for lemma in syn.lemmas()]] *)
  wordnet_lemma_names : string -> result (list string);
  (** [util.pytorch_cos_sim(e[0].unsqueeze(0), e[1:])[0]] for
      [e = model.encode(sentences)], every score through [.item()] *)
  similarity : list string -> result (list float);
  (** the order in which a [set] with the given insertion sequence is
      iterated *)
  set_iter : list string -> list string;
  (** [requests.get(url, params=…)] by the query sent *)
  requests_get : string -> http_reply;
  (** [emotion_classifier(text)[0]] *)
  emotion_classifier : string -> result (list EmotionScore);
  (** [sentiment_analyzer(text)[0]] *)
  sentiment_analyzer : string -> result (string * float);
  (** [kw_model.extract_keywords(text, …, top_n=5)] *)
  extract_keywords : string -> result (list (string * float))
}.

(** Iterating a set visits each of its elements once. *)
Definition set_iter_ok (env : Collaborators) : Prop :=
  forall s, NoDup s -> Permutation (set_iter env s) s.

(** [class AnalysisRequest(BaseModel)] *)
Record AnalysisRequest : Type := {
  text : string;
  find_sources : option bool
}.

(** One entry of ["academic_sources"]. *)
Record Paper : Type := {
  title : pyval;
  authors : list pyval;
  year : pyval;
  url : pyval;
  citationCount : pyval;
  paper_similarity : pyval
}.

(** The dictionary [analyze_emotion] returns. *)
Record Report : Type := {
  sentiment : string * float;
  primary_emotion : string * float * string;
  secondary_emotions : list (string * float);
  is_mixed : bool;
  diversity_score : float;
  key_phrases : list string;
  emotional_triggers : list string;
  academic_sources : list Paper;
  full_breakdown : list (string * float)
}.

(** [raise HTTPException(status_code=…, detail=…)] *)
Record HTTPException : Type := { status_code : Z; detail : string }.

Inductive response : Type :=
| Returned (report : Report)
| Raised (error : HTTPException).

(* ----------------------------------------------------------------- *)
(** ** Synonym resolution and query formulation *)

(** [get_wordnet_synonyms]: the lemma names with [_] replaced by a space,
    collected in a set and listed in the set's iteration order. *)
Definition get_wordnet_synonyms (env : Collaborators) (word : string) : M (list string) :=
  names <- call (EvWordnet word) (wordnet_lemma_names env word) ;;
  ret (set_iter env (PyList.set_update [] (map (PyStr.replace "_" " ") names))).

(** [[syn for syn, score in zip(wordnet_syns, similarities[0]) if score.item() > 0.6]] *)
Definition valid_synonyms (wordnet_syns : list string) (similarities : list float)
  : list string :=
  map fst (filter (fun p => (0.6 <? snd p)%float) (combine wordnet_syns similarities)).

(** The body of the [try] in [get_bert_synonyms], for one keyword; it
    yields what the keyword adds to [synonyms] ([continue] adds nothing). *)
Definition synonyms_of_keyword (env : Collaborators) (keyword : string) : M (list string) :=
  wordnet_syns <- get_wordnet_synonyms env keyword ;;
  match wordnet_syns with
  | [] => ret []
  | _ :: _ =>
      similarities <- call (EvEncode (keyword :: wordnet_syns))
                           (similarity env (keyword :: wordnet_syns)) ;;
      ret (valid_synonyms wordnet_syns similarities)
  end.

(** The [for keyword in keywords] loop, threading the set [synonyms]. *)
Fixpoint get_bert_synonyms_loop (env : Collaborators) (keywords : list string)
  (synonyms : list string) : M (list string) :=
  match keywords with
  | [] => ret synonyms
  | keyword :: rest =>
      valid <- try_except (synonyms_of_keyword env keyword) is_Exception
                 (fun e =>
                    print ("Synonym error for '" ++ keyword ++ "': " ++ str_exn e) ;;;
                    ret []) ;;
      get_bert_synonyms_loop env rest (PyList.set_update synonyms valid)
  end.

Definition get_bert_synonyms (env : Collaborators) (keywords : list string) : M (list string) :=
  synonyms <- get_bert_synonyms_loop env keywords [] ;;
  ret (set_iter env synonyms).

(** The local [query_terms] of [formulate_search_query]. *)
Definition query_terms (env : Collaborators) (keywords : list string) : M (list string) :=
  let primary_terms := firstn 3 keywords in
  expanded_synonyms <- get_bert_synonyms env primary_terms ;;
  ret (PyList.dict_keys (PyList.dict_fromkeys (primary_terms ++ expanded_synonyms))).

Definition formulate_search_query (env : Collaborators) (keywords : list string) : M string :=
  terms <- query_terms env keywords ;;
  ret (PyStr.slice_to 300 (PyStr.join " " terms)).

(* ----------------------------------------------------------------- *)
(** ** Literature search *)

(** [v.get(key, default)]: only a [dict] has the method. *)
Definition py_get (v : pyval) (key : string) (default : pyval) : result pyval :=
  match v with
  | PDict d => Ok (PyList.dict_get d key default)
  | _ => Raise (Exception "AttributeError"
                  ("'" ++ type_name v ++ "' object has no attribute 'get'"))
  end.

Definition semantic_scholar_url : string :=
  "https://api.semanticscholar.org/graph/v1/paper/search".

(** [search_semantic_scholar]. [requests.get] raises on a transport
    failure, [raise_for_status] raises [HTTPError] for a status in
    400..599 and [response.json()] raises [JSONDecodeError] when the body
    is not JSON; the three are [RequestException]s (the last one since
    requests 2.27). The text of the last two, which only reaches the
    printed line, is abridged to the class name. *)
Definition search_semantic_scholar (env : Collaborators) (query : string) : M pyval :=
  try_except
    (emit (EvHttpGet semantic_scholar_url query "title,authors,year,url,abstract" 10) ;;;
     match requests_get env query with
     | TransportFailure msg => raise (RequestException msg)
     | Response status body =>
         if ((400 <=? status) && (status <? 600))%Z
         then raise (RequestException "HTTPError")
         else match body with
              | None => raise (RequestException "JSONDecodeError")
              | Some v => lift (py_get v "data" (PList []))
              end
     end)
    is_RequestException
    (fun e => print ("Semantic Scholar API error: " ++ str_exn e) ;;; ret (PList [])).

Definition fetch_academic_articles (env : Collaborators) (text : string)
  (keywords : list string) : M pyval :=
  query <- formulate_search_query env keywords ;;
  search_semantic_scholar env query.

(* ----------------------------------------------------------------- *)
(** ** Emotion aggregation and the report *)

Definition get_emotional_intensity (score : float) : string :=
  if (0.9 <=? score)%float then "very high"
  else if (0.7 <=? score)%float then "high"
  else if (0.5 <=? score)%float then "moderate"
  else "low".

(** [key=lambda x: x['score']] compared with [<]. *)
Definition score_lt (a b : EmotionScore) : bool := (score a <? score b)%float.

(** [sorted(emotion_results, key=lambda x: x['score'], reverse=True)] *)
Definition sort_emotions (emotion_results : list EmotionScore) : list EmotionScore :=
  PyList.sorted score_lt true emotion_results.

(** [l[0]] *)
Definition index0 {A} (l : list A) : result A :=
  match l with
  | x :: _ => Ok x
  | [] => Raise (Exception "IndexError" "list index out of range")
  end.

(** [a / b] on two [int]s. *)
Definition truediv (a b : Z) : result float :=
  if (b =? 0)%Z then Raise (Exception "ZeroDivisionError" "division by zero")
  else Ok (PyFloat.int_truediv a b).

(** [for x in v] *)
Definition iterate (v : pyval) : result (list pyval) :=
  match v with
  | PList l => Ok l
  | PDict d => Ok (map (fun kv => PStr (fst kv)) d)
  | PStr s => Ok (map (fun c => PStr (String c EmptyString)) (list_ascii_of_string s))
  | _ => Raise (Exception "TypeError" ("'" ++ type_name v ++ "' object is not iterable"))
  end.

(** [round(v, ndigits)] on a value: an [int] (a [bool] is one) is returned
    as an [int], a [float] is rounded, nothing else can be rounded. *)
Definition py_round (v : pyval) (ndigits : nat) : result pyval :=
  match v with
  | PInt n => Ok (PInt n)
  | PBool b => Ok (PInt (if b then 1 else 0))
  | PFloat f => Ok (PFloat (PyFloat.round f ndigits))
  | _ => Raise (Exception "TypeError"
                  ("type " ++ type_name v ++ " doesn't define __round__ method"))
  end.

(** A list comprehension whose element expression may raise. *)
Fixpoint comprehension {A B} (f : A -> result B) (l : list A) : result (list B) :=
  match l with
  | [] => Ok []
  | x :: l' => y <~ f x ;; ys <~ comprehension f l' ;; Ok (y :: ys)
  end.

(** One entry of ["academic_sources"], fields in the order of the source. *)
Definition compose_paper (paper : pyval) : result Paper :=
  p_title <~ py_get paper "title" (PStr "Untitled") ;;
  p_authors <~ (a <~ py_get paper "authors" (PList []) ;;
                items <~ iterate a ;;
                comprehension (fun a => py_get a "name" (PStr "")) items) ;;
  p_year <~ py_get paper "year" (PStr "") ;;
  p_url <~ py_get paper "url" (PStr "#") ;;
  p_citations <~ py_get paper "citationCount" (PInt 0) ;;
  p_similarity <~ (s <~ py_get paper "similarity" (PInt 0) ;; py_round s 2) ;;
  Ok {| title := p_title; authors := p_authors; year := p_year; url := p_url;
        citationCount := p_citations; paper_similarity := p_similarity |}.

(** The comprehension that builds ["academic_sources"]. *)
Definition compose_papers (sources : pyval) : result (list Paper) :=
  items <~ iterate sources ;; comprehension compose_paper items.

(** ["is_mixed"]: [len(l) > 1 and l[0]['score'] - l[1]['score'] < 0.2] *)
Definition mixed (sorted_emotions : list EmotionScore) : bool :=
  match sorted_emotions with
  | e0 :: e1 :: _ => (score e0 - score e1 <? 0.2)%float
  | _ => false
  end.

(** ["diversity_score"] *)
Definition diversity (sorted_emotions : list EmotionScore) : result float :=
  d <~ truediv (Z.of_nat (List.length (filter (fun e => (0.1 <? score e)%float) sorted_emotions)))
               (Z.of_nat (List.length sorted_emotions)) ;;
  Ok (PyFloat.round d 3).

(** ["emotional_triggers"] *)
Definition triggers (keywords : list string) (sorted_emotions : list EmotionScore)
  : list string :=
  filter (fun phrase =>
            existsb (fun emotion => PyStr.contains (label emotion) (PyStr.lower phrase))
                    (firstn 5 sorted_emotions))
         keywords.

(** ["full_breakdown"] *)
Definition breakdown (sorted_emotions : list EmotionScore) : list (string * float) :=
  fold_left (fun d e => PyList.dict_set d (label e) (PyFloat.round (score e) 3))
            sorted_emotions [].

(** [request.find_sources and keywords], as a condition. *)
Definition wants_sources (request : AnalysisRequest) (keywords : list string) : bool :=
  match find_sources request, keywords with
  | Some true, _ :: _ => true
  | _, _ => false
  end.

(** The dictionary that [analyze_emotion] returns, entries in the order of
    the source. *)
Definition report_of (sorted_emotions : list EmotionScore)
  (sentiment_result : string * float) (keywords : list string) (sources : pyval)
  : result Report :=
  top <~ index0 sorted_emotions ;;
  d <~ diversity sorted_emotions ;;
  papers <~ compose_papers sources ;;
  Ok {| sentiment := (fst sentiment_result, PyFloat.round (snd sentiment_result) 3);
        primary_emotion := (label top, PyFloat.round (score top) 3,
                            get_emotional_intensity (score top));
        secondary_emotions :=
          map (fun e => (label e, PyFloat.round (score e) 3)) (tl sorted_emotions);
        is_mixed := mixed sorted_emotions;
        diversity_score := d;
        key_phrases := keywords;
        emotional_triggers := triggers keywords sorted_emotions;
        academic_sources := papers;
        full_breakdown := breakdown sorted_emotions |}.

(** The body of the [try] block of [analyze_emotion]. *)
Definition build_report (env : Collaborators) (request : AnalysisRequest)
  (stripped : string) : M Report :=
  emotion_results <- call (EvClassify stripped) (emotion_classifier env stripped) ;;
  let sorted_emotions := sort_emotions emotion_results in
  sentiment_result <- call (EvSentiment stripped) (sentiment_analyzer env stripped) ;;
  extracted <- call (EvKeywords stripped) (extract_keywords env stripped) ;;
  let keywords := map fst extracted in
  sources <- (if wants_sources request keywords
              then fetch_academic_articles env stripped keywords
              else ret (PList [])) ;;
  lift (report_of sorted_emotions sentiment_result keywords sources).

(** [x_api_key != os.getenv("API_KEY")] *)
Definition key_mismatch (env : Collaborators) (x_api_key : string) : bool :=
  match api_key_env env with
  | Some k => negb (String.eqb x_api_key k)
  | None => true
  end.

(** The endpoint [POST /analyze]. *)
Definition analyze_emotion (env : Collaborators) (request : AnalysisRequest)
  (x_api_key : string) (t : trace) : response * trace :=
  if key_mismatch env x_api_key
  then (Raised {| status_code := 401; detail := "Invalid API key" |}, t)
  else
    let stripped := PyStr.strip (text request) in
    if (String.eqb stripped "" || (1000 <? String.length stripped)%nat)%bool
    then (Raised {| status_code := 400; detail := "Invalid text input" |}, t)
    else
      match build_report env request stripped t with
      | (Ok report, t') => (Returned report, t')
      | (Raise e, t') => (Raised {| status_code := 500; detail := str_exn e |}, t')
      end.

(* ----------------------------------------------------------------- *)
(** ** Vocabulary of the statements *)

(** The score is a number: the classifier did not produce a NaN. *)
Definition scored (e : EmotionScore) : Prop := PrimFloat.is_nan (score e) = false.

Definition is_http_get (ev : event) : bool :=
  match ev with EvHttpGet _ _ _ _ => true | _ => false end.

Definition is_encode (ev : event) : bool :=
  match ev with EvEncode _ => true | _ => false end.

(** No event of the trace satisfies [p]. *)
Definition never (p : event -> bool) (t : trace) : Prop :=
  forallb (fun ev => negb (p ev)) t = true.

(** What [get_wordnet_synonyms] yields, the trace apart. *)
Definition wordnet_synonyms (env : Collaborators) (word : string) : result (list string) :=
  names <~ wordnet_lemma_names env word ;;
  Ok (set_iter env (PyList.set_update [] (map (PyStr.replace "_" " ") names))).

(** What one keyword adds to [synonyms]: the candidates that pass the
    threshold, and nothing when there is no candidate or a call raises. *)
Definition accepted (env : Collaborators) (keyword : string) : list string :=
  match wordnet_synonyms env keyword with
  | Ok [] => []
  | Ok candidates =>
      match similarity env (keyword :: candidates) with
      | Ok similarities => valid_synonyms candidates similarities
      | Raise _ => []
      end
  | Raise _ => []
  end.

(** The three calls every admitted request starts with. *)
Definition calls3 (stripped : string) : trace :=
  [EvClassify stripped; EvSentiment stripped; EvKeywords stripped].

(** The request passes the two checks at the head of [analyze_emotion]:
    the key is the configured one and the stripped text has between 1 and
    1000 characters. *)
Definition admitted (env : Collaborators) (request : AnalysisRequest)
  (x_api_key : string) : bool :=
  negb (key_mismatch env x_api_key)
  && negb (String.eqb (PyStr.strip (text request)) ""
           || (1000 <? String.length (PyStr.strip (text request)))%nat).

(** The replies [search_semantic_scholar] recovers from: a transport
    failure, a status in 400..599, a body that is not JSON. *)
Definition failed_reply (reply : http_reply) : bool :=
  match reply with
  | TransportFailure _ => true
  | Response status body =>
      ((400 <=? status) && (status <? 600))%Z
      || match body with None => true | Some _ => false end
  end.

(** The request that [search_semantic_scholar] sends for a query. *)
Definition http_get_event (query : string) : event :=
  EvHttpGet semantic_scholar_url query "title,authors,year,url,abstract" 10.

(** What [search_semantic_scholar] yields for a reply of the endpoint, the
    trace apart. *)
Definition search_result (reply : http_reply) : result pyval :=
  match reply with
  | TransportFailure _ => Ok (PList [])
  | Response status body =>
      if ((400 <=? status) && (status <? 600))%Z then Ok (PList [])
      else match body with
           | None => Ok (PList [])
           | Some v => py_get v "data" (PList [])
           end
  end.

(** Each element is kept unless it occurred earlier ([seen] holds what
    occurred so far). *)
Fixpoint keep_first (seen : list string) (l : list string) : list string :=
  match l with
  | [] => []
  | x :: l' =>
      if PyStr.mem x seen then keep_first seen l' else x :: keep_first (x :: seen) l'
  end.

(** The line [get_bert_synonyms] prints when a keyword fails. *)
Definition synonym_error (keyword : string) (e : exn) : event :=
  EvPrint ("Synonym error for '" ++ keyword ++ "': " ++ str_exn e).

(** What one round of the loop of [get_bert_synonyms] does to the outside
    world. *)
Definition round_events (env : Collaborators) (keyword : string) : trace :=
  match wordnet_synonyms env keyword with
  | Ok [] => [EvWordnet keyword]
  | Ok candidates =>
      EvWordnet keyword :: EvEncode (keyword :: candidates) ::
      match similarity env (keyword :: candidates) with
      | Ok _ => []
      | Raise e => [synonym_error keyword e]
      end
  | Raise e => [EvWordnet keyword; synonym_error keyword e]
  end.

Definition is_wordnet (ev : event) : bool :=
  match ev with EvWordnet _ => true | _ => false end.

Definition is_classifier_call (ev : event) : bool :=
  match ev with EvClassify _ | EvSentiment _ | EvKeywords _ => true | _ => false end.

(** The four intensity buckets, from the lowest to the highest. *)
Definition intensity_rank (bucket : string) : nat :=
  if String.eqb bucket "very high" then 3
  else if String.eqb bucket "high" then 2
  else if String.eqb bucket "moderate" then 1
  else 0.

(** A search result the report can show: a [dict] whose ["authors"], if
    any, is a list of [dict]s and whose ["similarity"], if any, is a
    number. *)
Definition paper_ok (v : pyval) : bool :=
  match v with
  | PDict d =>
      match PyList.dict_get d "authors" (PList []) with
      | PList l => forallb (fun a => match a with PDict _ => true | _ => false end) l
      | _ => false
      end
      && match PyList.dict_get d "similarity" (PInt 0) with
         | PInt _ | PBool _ | PFloat _ => true
         | _ => false
         end
  | _ => false
  end.

(** The title the report shows for a search result. *)
Definition shown_title (v : pyval) : pyval :=
  match v with
  | PDict d => PyList.dict_get d "title" (PStr "Untitled")
  | _ => PNone
  end.

(** The accepted synonyms of the keywords, each once, in the order in which
    the loop of [get_bert_synonyms] meets them first. *)
Definition first_encountered (env : Collaborators) (keywords : list string) : list string :=
  keep_first [] (List.concat (map (accepted env) keywords)).

(* ----------------------------------------------------------------- *)
(** ** Stub collaborators *)

Module Demo.

Definition lemma_names (word : string) : result (list string) :=
  if String.eqb word "happy" then Ok ["glad"; "felicitous"; "well_chosen"; "glad"]
  else if String.eqb word "sad" then Ok ["blue"; "deplorable"]
  else if String.eqb word "paris" then Ok ["Paris"; "City_of_Light"]
  else if String.eqb word "broken" then Raise (Exception "LookupError" "no corpus")
  else Ok [].

Definition cosine (sentences : list string) : result (list float) :=
  Ok (map (fun s => if String.eqb s "glad" then 0.9%float
                    else if String.eqb s "blue" then 0.8%float
                    else if String.eqb s "felicitous" then 0.6%float
                    else 0.3%float)
          (tl sentences)).

Definition paper : pyval :=
  PDict [("title", PStr "On joy");
         ("authors", PList [PDict [("name", PStr "A. Author")]]);
         ("year", PInt 2020);
         ("url", PStr "https://example.org/1")].

Definition found : http_reply :=
  Response 200 (Some (PDict [("total", PInt 1); ("data", PList [paper])])).

Definition emotions : list EmotionScore :=
  [ {| label := "joy"; score := 0.55 |}; {| label := "sadness"; score := 0.45 |} ].

(** Two emotions share the top score. *)
Definition tied_emotions : list EmotionScore :=
  [ {| label := "fear"; score := 0.4 |}; {| label := "joy"; score := 0.95 |};
    {| label := "anger"; score := 0.1 |}; {| label := "surprise"; score := 0.95 |} ].

(** A set iterated in insertion order. *)
Definition insertion_order (s : list string) : list string := s.

(** A set iterated in an order of its own, here the alphabetical one. *)
Definition hash_order (s : list string) : list string := PyList.sort String.ltb s.

Definition env (order : list string -> list string) (reply : http_reply)
  (emotion_results : list EmotionScore) (keywords : list string) : Collaborators :=
  {| api_key_env := Some "secret";
     wordnet_lemma_names := lemma_names;
     similarity := cosine;
     set_iter := order;
     requests_get := fun _ => reply;
     emotion_classifier := fun _ => Ok emotion_results;
     sentiment_analyzer := fun _ => Ok ("POSITIVE", 0.9987%float);
     extract_keywords := fun _ => Ok (map (fun k => (k, 0.5%float)) keywords) |}.

Definition request : AnalysisRequest :=
  {| text := "  I am happy but a little sad  "; find_sources := Some true |}.

End Demo.

(* ================================================================= *)
(** * Part II: properties *)
(* ================================================================= *)

Unset Implicit Arguments.

(* ----------------------------------------------------------------- *)
(** ** The order of binary64 values *)

Lemma lex_compare_cases (r1 r2 : PyFloat.rank) :
  (PyFloat.lex_compare r1 r2 = Lt /\ PyFloat.lex_lt r1 r2) \/
  (PyFloat.lex_compare r1 r2 = Eq /\ r1 = r2) \/
  (PyFloat.lex_compare r1 r2 = Gt /\ PyFloat.lex_lt r2 r1).
Proof.
  destruct r1 as [[a1 b1] c1], r2 as [[a2 b2] c2]; simpl.
  destruct (Z.compare_spec a1 a2), (Z.compare_spec b1 b2), (Z.compare_spec c1 c2);
    subst; auto; try (left; split; [reflexivity | lia]);
    right; right; split; try reflexivity; lia.
Qed.

Lemma SFcompare_rank (f1 f2 : spec_float) :
  SFcompare f1 f2 =
  match PyFloat.SFrank f1, PyFloat.SFrank f2 with
  | Some r1, Some r2 => Some (PyFloat.lex_compare r1 r2)
  | _, _ => None
  end.
Proof.
  destruct f1 as [s1|s1| |s1 m1 e1], f2 as [s2|s2| |s2 m2 e2];
    try destruct s1; try destruct s2; simpl; try reflexivity.
  replace (- e1 ?= - e2)%Z with (CompOpp (e1 ?= e2)%Z)
    by (rewrite <- Z.compare_antisym; symmetry; apply Z.compare_opp).
  destruct (e1 ?= e2)%Z; reflexivity.
Qed.

Lemma ltb_rank (x y : float) :
  (x <? y)%float = PyFloat.cmpb (fun c => match c with Lt => true | _ => false end) x y.
Proof.
  rewrite FloatAxioms.ltb_spec. unfold SFltb, PyFloat.cmpb, PyFloat.frank. rewrite SFcompare_rank.
  destruct (PyFloat.SFrank (Prim2SF x)), (PyFloat.SFrank (Prim2SF y)); reflexivity.
Qed.

Lemma leb_rank (x y : float) :
  (x <=? y)%float = PyFloat.cmpb (fun c => match c with Gt => false | _ => true end) x y.
Proof.
  rewrite FloatAxioms.leb_spec. unfold SFleb, PyFloat.cmpb, PyFloat.frank. rewrite SFcompare_rank.
  destruct (PyFloat.SFrank (Prim2SF x)), (PyFloat.SFrank (Prim2SF y)); reflexivity.
Qed.

Lemma eqb_rank (x y : float) :
  (x =? y)%float = PyFloat.cmpb (fun c => match c with Eq => true | _ => false end) x y.
Proof.
  rewrite FloatAxioms.eqb_spec. unfold SFeqb, PyFloat.cmpb, PyFloat.frank. rewrite SFcompare_rank.
  destruct (PyFloat.SFrank (Prim2SF x)), (PyFloat.SFrank (Prim2SF y)); reflexivity.
Qed.

Ltac rank_cases :=
  repeat match goal with
  | |- context [PyFloat.lex_compare ?a ?b] =>
      let E := fresh "E" in let L := fresh "L" in
      destruct (lex_compare_cases a b) as [[E L] | [[E L] | [E L]]];
      rewrite E in *; clear E
  | H : context [PyFloat.lex_compare ?a ?b] |- _ =>
      let E := fresh "E" in let L := fresh "L" in
      destruct (lex_compare_cases a b) as [[E L] | [[E L] | [E L]]];
      rewrite E in *; clear E
  end.

(** Comparisons of floats become comparisons of ranks, settled by [lia]. *)
Ltac float_order :=
  unfold PrimFloat.is_nan in *;
  rewrite ?ltb_rank, ?leb_rank, ?eqb_rank in *;
  unfold PyFloat.cmpb in *;
  repeat match goal with
  | |- context [PyFloat.frank ?x] => destruct (PyFloat.frank x) as [[[? ?] ?]|]
  | H : context [PyFloat.frank ?x] |- _ => destruct (PyFloat.frank x) as [[[? ?] ?]|]
  end;
  rank_cases; simpl in *; try discriminate; try reflexivity; try tauto;
  repeat match goal with H : (_, _) = (_, _) |- _ => injection H as ? ? end;
  subst; simpl in *; try tauto; try lia.

Lemma float_ltb_asym (x y : float) :
  (x <? y)%float = true -> (y <? x)%float = false.
Proof. intros H. float_order. Qed.

Lemma float_ltb_trans (x y z : float) :
  (x <? y)%float = true -> (y <? z)%float = true -> (x <? z)%float = true.
Proof. intros H1 H2. float_order. Qed.

Lemma float_ltb_negtrans (x y z : float) :
  PrimFloat.is_nan y = false ->
  (x <? y)%float = false -> (y <? z)%float = false -> (x <? z)%float = false.
Proof. intros Hy H1 H2. float_order. Qed.

Lemma float_leb_not_nan (x y : float) :
  (x <=? y)%float = true -> PrimFloat.is_nan x = false /\ PrimFloat.is_nan y = false.
Proof. intros H. float_order. Qed.

Lemma float_ltb_not_nan (x y : float) :
  (x <? y)%float = true -> PrimFloat.is_nan x = false /\ PrimFloat.is_nan y = false.
Proof. intros H. float_order. Qed.

Lemma float_ltb_negb_leb (x y : float) :
  PrimFloat.is_nan x = false -> PrimFloat.is_nan y = false ->
  (x <? y)%float = negb (y <=? x)%float.
Proof. intros Hx Hy. float_order. Qed.

Lemma float_leb_trans (x y z : float) :
  (x <=? y)%float = true -> (y <=? z)%float = true -> (x <=? z)%float = true.
Proof. intros H1 H2. float_order. Qed.

Lemma float_ltb_leb_trans (x y z : float) :
  (x <? y)%float = true -> (y <=? z)%float = true -> (x <? z)%float = true.
Proof. intros H1 H2. float_order. Qed.

Lemma float_leb_ltb_trans (x y z : float) :
  (x <=? y)%float = true -> (y <? z)%float = true -> (x <? z)%float = true.
Proof. intros H1 H2. float_order. Qed.

Lemma float_eqb_ltb (x y : float) :
  PrimFloat.is_nan x = false -> PrimFloat.is_nan y = false ->
  (x =? y)%float = negb (x <? y)%float && negb (y <? x)%float.
Proof. intros Hx Hy. float_order. Qed.

Lemma float_nan_compare (x y : float) :
  PrimFloat.is_nan x = true ->
  (x <? y)%float = false /\ (y <? x)%float = false /\
  (x <=? y)%float = false /\ (y <=? x)%float = false.
Proof. intros H. float_order. Qed.

(* ----------------------------------------------------------------- *)
(** ** [sorted]: permutation, order and stability *)

Section SortedFacts.
Variable A : Type.
Variable lt : A -> A -> bool.
(** The elements the key order is well behaved on. *)
Variable good : A -> Prop.
Hypothesis lt_asym : forall a b,
  good a -> good b -> lt a b = true -> lt b a = false.
Hypothesis lt_negtrans : forall a b c,
  good a -> good b -> good c -> lt a b = false -> lt b c = false -> lt a c = false.

Lemma insert_perm (x : A) (l : list A) : Permutation (PyList.insert lt x l) (x :: l).
Proof.
  induction l as [|y l IH]; simpl; [reflexivity|].
  destruct (lt x y); [reflexivity|].
  rewrite IH. apply perm_swap.
Qed.

Lemma sort_snoc (l : list A) (x : A) :
  PyList.sort lt (l ++ [x]) = PyList.insert lt x (PyList.sort lt l).
Proof. unfold PyList.sort. rewrite fold_left_app. reflexivity. Qed.

Lemma sort_perm (l : list A) : Permutation (PyList.sort lt l) l.
Proof.
  induction l as [|x l IH] using rev_ind; [reflexivity|].
  rewrite sort_snoc, insert_perm, IH. apply Permutation_cons_append.
Qed.

Lemma sorted_perm (reverse : bool) (l : list A) :
  Permutation (PyList.sorted lt reverse l) l.
Proof.
  unfold PyList.sorted. destruct reverse; [|apply sort_perm].
  rewrite <- Permutation_rev, sort_perm. symmetry. apply Permutation_rev.
Qed.

Lemma insert_Forall (Q : A -> Prop) (x : A) (l : list A) :
  Q x -> Forall Q l -> Forall Q (PyList.insert lt x l).
Proof.
  intros Hx Hl. eapply Permutation_Forall; [symmetry; apply insert_perm|].
  constructor; assumption.
Qed.

Lemma insert_sorted (x : A) (l : list A) :
  good x -> Forall good l ->
  StronglySorted (PyList.ascending lt) l ->
  StronglySorted (PyList.ascending lt) (PyList.insert lt x l).
Proof.
  intros Hx Hl Hs. induction Hs as [|y l Hs IH Hy]; simpl.
  - repeat constructor.
  - inversion Hl as [|? ? Gy Gl]; subst.
    destruct (lt x y) eqn:E.
    + assert (lt y x = false) as Hyx by (apply lt_asym; assumption).
      constructor; [constructor; assumption|].
      constructor; [exact Hyx|].
      rewrite Forall_forall in *. intros z Hz.
      apply lt_negtrans with (b := y); auto. apply Hy, Hz.
    + constructor; [apply IH, Gl|].
      apply insert_Forall; assumption.
Qed.

Lemma sort_good (l : list A) : Forall good l -> Forall good (PyList.sort lt l).
Proof. intros H. eapply Permutation_Forall; [symmetry; apply sort_perm|exact H]. Qed.

Lemma sort_sorted (l : list A) :
  Forall good l -> StronglySorted (PyList.ascending lt) (PyList.sort lt l).
Proof.
  induction l as [|x l IH] using rev_ind; intros Hl.
  - constructor.
  - apply Forall_app in Hl as [Hl Hx]. inversion Hx; subst.
    rewrite sort_snoc. apply insert_sorted; auto using sort_good.
Qed.

Lemma StronglySorted_snoc (R : A -> A -> Prop) (l : list A) (x : A) :
  StronglySorted R l -> Forall (fun y => R y x) l -> StronglySorted R (l ++ [x]).
Proof.
  induction 1 as [|y l Hs IH Hy]; intros Hx; simpl.
  - repeat constructor.
  - inversion Hx; subst. constructor; [apply IH; assumption|].
    apply Forall_app; split; [assumption|]. repeat constructor; assumption.
Qed.

Lemma StronglySorted_rev (R : A -> A -> Prop) (l : list A) :
  StronglySorted R l -> StronglySorted (fun a b => R b a) (rev l).
Proof.
  induction 1 as [|y l Hs IH Hy]; simpl; [constructor|].
  apply StronglySorted_snoc; [exact IH|].
  apply Forall_rev. exact Hy.
Qed.

(** With [reverse=True] the result is in (PyList.descending lt) order of the keys. *)
Lemma sorted_reverse_descending (l : list A) :
  Forall good l -> StronglySorted (PyList.descending lt) (PyList.sorted lt true l).
Proof.
  intros Hl. unfold PyList.sorted.
  apply StronglySorted_rev with (R := PyList.ascending lt).
  apply sort_sorted, Forall_rev, Hl.
Qed.

Lemma filter_snoc (p : A -> bool) (l : list A) (x : A) :
  filter p (l ++ [x]) = filter p l ++ (if p x then [x] else []).
Proof. rewrite filter_app. reflexivity. Qed.

(** Inserting into a sorted list puts an element after the ones with the
    same key. *)
Lemma filter_insert (k x : A) (l : list A) :
  good k -> good x -> Forall good l -> StronglySorted (PyList.ascending lt) l ->
  filter (PyList.same_key lt k) (PyList.insert lt x l) =
  filter (PyList.same_key lt k) l ++ (if PyList.same_key lt k x then [x] else []).
Proof.
  intros Hk Hx Hl Hs. induction Hs as [|y l Hs IH Hy]; cbn [PyList.insert].
  - simpl. destruct (PyList.same_key lt k x); reflexivity.
  - inversion Hl as [|? ? Gy Gl]; subst.
    destruct (lt x y) eqn:E.
    + change (filter (PyList.same_key lt k) (x :: y :: l)) with
        (if PyList.same_key lt k x then x :: filter (PyList.same_key lt k) (y :: l)
         else filter (PyList.same_key lt k) (y :: l)).
      destruct (PyList.same_key lt k x) eqn:Ekx; [|symmetry; apply app_nil_r].
      (* nothing from [y] on has the key of [x] *)
      assert (filter (PyList.same_key lt k) (y :: l) = []) as Hnone.
      { apply andb_prop in Ekx as [Ekx1 Ekx2].
        apply negb_true_iff in Ekx1, Ekx2.
        assert (forall z, good z -> lt z y = false -> PyList.same_key lt k z = false) as Hz.
        { intros z Gz Hzy. unfold PyList.same_key.
          destruct (lt k z) eqn:Ekz; [reflexivity|]. exfalso.
          assert (lt x z = false) as Hxz by (apply lt_negtrans with (b := k); auto).
          assert (lt x y = false) by (apply lt_negtrans with (b := z); auto).
          congruence. }
        assert (lt y y = false) as Hyy.
        { destruct (lt y y) eqn:K; [|reflexivity].
          rewrite <- K. apply lt_asym; auto. }
        simpl. rewrite (Hz y Gy Hyy).
        rewrite Forall_forall in Gl, Hy.
        clear -Hz Gl Hy. induction l as [|z l IHl]; [reflexivity|]. simpl.
        rewrite Hz.
        - apply IHl; intros w Hw; [apply Hy | apply Gl]; right; exact Hw.
        - apply Gl; left; reflexivity.
        - apply Hy; left; reflexivity. }
      rewrite Hnone. reflexivity.
    + change (filter (PyList.same_key lt k) (y :: PyList.insert lt x l)) with
        (if PyList.same_key lt k y then y :: filter (PyList.same_key lt k) (PyList.insert lt x l)
         else filter (PyList.same_key lt k) (PyList.insert lt x l)).
      rewrite (IH Gl). simpl. destruct (PyList.same_key lt k y); reflexivity.
Qed.

(** [list.sort] is stable: the elements of any one key keep their order. *)
Lemma sort_stable (k : A) (l : list A) :
  good k -> Forall good l ->
  filter (PyList.same_key lt k) (PyList.sort lt l) = filter (PyList.same_key lt k) l.
Proof.
  intros Hk. induction l as [|x l IH] using rev_ind; intros Hl; [reflexivity|].
  apply Forall_app in Hl as [Hl Hx]. inversion Hx; subst.
  rewrite sort_snoc, filter_insert, filter_snoc, IH; auto using sort_good, sort_sorted.
Qed.

Lemma filter_rev (p : A -> bool) (l : list A) : filter p (rev l) = rev (filter p l).
Proof.
  induction l as [|x l IH]; [reflexivity|]. simpl.
  rewrite filter_app, IH. simpl. destruct (p x); simpl; [reflexivity|].
  apply app_nil_r.
Qed.

(** [sorted] is stable also with [reverse=True]. *)
Lemma sorted_stable (reverse : bool) (k : A) (l : list A) :
  good k -> Forall good l ->
  filter (PyList.same_key lt k) (PyList.sorted lt reverse l) = filter (PyList.same_key lt k) l.
Proof.
  intros Hk Hl. unfold PyList.sorted. destruct reverse; [|apply sort_stable; assumption].
  rewrite filter_rev, sort_stable, filter_rev, rev_involutive;
    auto using Forall_rev.
Qed.

End SortedFacts.

(* ----------------------------------------------------------------- *)
(** ** Computations: results and traces *)

Lemma bind_Ok {A B} (m : M A) (k : A -> M B) (t t1 : trace) (a : A) :
  m t = (Ok a, t1) -> bind m k t = k a t1.
Proof. unfold bind. intros ->. reflexivity. Qed.
Arguments bind_Ok {A B m} k {t t1 a} _.

(* ----------------------------------------------------------------- *)
(** ** Sets and dictionaries keep the first occurrence *)

Lemma mem_In (x : string) (l : list string) : PyStr.mem x l = true <-> In x l.
Proof.
  unfold PyStr.mem. rewrite existsb_exists. split.
  - intros (y & Hy & E). apply String.eqb_eq in E. subst. exact Hy.
  - intros H. exists x. split; [exact H | apply String.eqb_refl].
Qed.

Lemma mem_false (x : string) (l : list string) : PyStr.mem x l = false <-> ~ In x l.
Proof.
  rewrite <- mem_In. destruct (PyStr.mem x l); split; intros; congruence.
Qed.

Lemma keep_first_ext (s1 s2 l : list string) :
  (forall x, In x s1 <-> In x s2) -> keep_first s1 l = keep_first s2 l.
Proof.
  revert s1 s2. induction l as [|x l IH]; intros s1 s2 H; simpl; [reflexivity|].
  assert (PyStr.mem x s1 = PyStr.mem x s2) as ->.
  { destruct (PyStr.mem x s2) eqn:E.
    - apply mem_In. apply H. apply mem_In. exact E.
    - apply mem_false. rewrite H. apply mem_false. exact E. }
  destruct (PyStr.mem x s2); [apply IH, H|].
  f_equal. apply IH. intros y. simpl. rewrite H. reflexivity.
Qed.

Lemma keep_first_In (seen l : list string) (x : string) :
  In x (keep_first seen l) <-> In x l /\ ~ In x seen.
Proof.
  revert seen. induction l as [|y l IH]; intros seen; simpl; [tauto|].
  destruct (PyStr.mem y seen) eqn:E.
  - apply mem_In in E. rewrite IH. split; [tauto|].
    intros [[-> | H] Hn]; [contradiction | tauto].
  - apply mem_false in E. simpl. rewrite IH. simpl.
    destruct (String.eqb_spec y x) as [-> | Hne]; [tauto|].
    split; [tauto|]. intros [[H | H] Hn]; [contradiction|]. right. tauto.
Qed.

Lemma keep_first_NoDup (seen l : list string) : NoDup (keep_first seen l).
Proof.
  revert seen. induction l as [|y l IH]; intros seen; simpl; [constructor|].
  destruct (PyStr.mem y seen); [apply IH|].
  constructor; [|apply IH].
  rewrite keep_first_In. simpl. tauto.
Qed.

Lemma keep_first_NoDup_id (l : list string) : NoDup l -> keep_first [] l = l.
Proof.
  assert (forall seen, NoDup l -> (forall x, In x l -> ~ In x seen) ->
                       keep_first seen l = l) as G.
  { induction l as [|y l IH]; intros seen Hn Hd; simpl; [reflexivity|].
    inversion Hn; subst.
    assert (PyStr.mem y seen = false) as -> by (apply mem_false, Hd; left; reflexivity).
    f_equal. apply IH; [assumption|].
    intros x Hx [-> | Hs]; [contradiction|]. apply (Hd x); [right|]; assumption. }
  intros Hn. apply G; [assumption | intros x _ []].
Qed.

(** A set updated with a list gains the new elements in the order of their
    first occurrence. *)
Lemma set_update_keep_first (s l : list string) :
  PyList.set_update s l = s ++ keep_first s l.
Proof.
  revert s. induction l as [|x l IH]; intros s; [symmetry; apply app_nil_r|].
  change (PyList.set_update s (x :: l))
    with (PyList.set_update (PyList.set_add s x) l).
  rewrite IH. unfold PyList.set_add. simpl keep_first.
  destruct (PyStr.mem x s); [reflexivity|].
  rewrite <- app_assoc. simpl. do 2 f_equal.
  apply keep_first_ext. intros y. rewrite in_app_iff. simpl. tauto.
Qed.

Lemma set_update_app (s l1 l2 : list string) :
  PyList.set_update s (l1 ++ l2) = PyList.set_update (PyList.set_update s l1) l2.
Proof. unfold PyList.set_update. apply fold_left_app. Qed.

Lemma set_update_nil_NoDup (l : list string) : NoDup (PyList.set_update [] l).
Proof. rewrite set_update_keep_first. apply keep_first_NoDup. Qed.

Lemma set_update_nil_In (l : list string) (x : string) :
  In x (PyList.set_update [] l) <-> In x l.
Proof. rewrite set_update_keep_first. simpl. rewrite keep_first_In. simpl. tauto. Qed.

Lemma dict_keys_set {V} (d : list (string * V)) (k : string) (v : V) :
  PyList.dict_keys (PyList.dict_set d k v) = PyList.set_add (PyList.dict_keys d) k.
Proof.
  unfold PyList.set_add, PyList.dict_keys.
  induction d as [|[k' v'] d IH]; simpl; [reflexivity|].
  destruct (String.eqb k k') eqn:E; simpl; [reflexivity|].
  rewrite IH. destruct (PyStr.mem k (map fst d)); reflexivity.
Qed.

(** [list(dict.fromkeys(l))] is [l] without the repetitions. *)
Lemma dict_fromkeys_keep_first (l : list string) :
  PyList.dict_keys (PyList.dict_fromkeys l) = keep_first [] l.
Proof.
  transitivity (PyList.set_update [] l);
    [|rewrite set_update_keep_first; reflexivity].
  unfold PyList.dict_fromkeys, PyList.set_update.
  assert (forall d : list (string * unit),
             PyList.dict_keys (fold_left (fun d k => PyList.dict_set d k tt) l d)
             = fold_left PyList.set_add l (PyList.dict_keys d)) as G.
  { induction l as [|x l IH]; intros d; simpl; [reflexivity|].
    rewrite IH, dict_keys_set. reflexivity. }
  apply (G []).
Qed.

Lemma keep_first_app (l1 l2 : list string) :
  keep_first [] (l1 ++ l2) = keep_first [] l1 ++ keep_first (keep_first [] l1) l2.
Proof.
  assert (forall l, keep_first [] l = PyList.set_update [] l) as E
    by (intros; rewrite set_update_keep_first; reflexivity).
  rewrite (E (l1 ++ l2)), set_update_app, <- (E l1), set_update_keep_first.
  reflexivity.
Qed.

(* ----------------------------------------------------------------- *)
(** ** Strings *)

Lemma slice_to_length (n : nat) (s : string) :
  (String.length (PyStr.slice_to n s) <= n)%nat.
Proof.
  unfold PyStr.slice_to. revert s. induction n as [|n IH]; intros s.
  - destruct s; simpl; lia.
  - destruct s as [|c s]; simpl; [lia|]. specialize (IH s). lia.
Qed.

Lemma slice_to_short (n : nat) (s : string) :
  (String.length s <= n)%nat -> PyStr.slice_to n s = s.
Proof.
  unfold PyStr.slice_to. revert s. induction n as [|n IH]; intros s H.
  - destruct s; simpl in *; [reflexivity | lia].
  - destruct s as [|c s]; simpl in *; [reflexivity|]. f_equal. apply IH. lia.
Qed.

(* ----------------------------------------------------------------- *)
(** ** Synonym resolution *)

Lemma get_wordnet_synonyms_eq (env : Collaborators) (word : string) (t : trace) :
  get_wordnet_synonyms env word t = (wordnet_synonyms env word, t ++ [EvWordnet word]).
Proof.
  unfold get_wordnet_synonyms, wordnet_synonyms, bind, call, emit, lift, ret, rbind.
  simpl. destruct (wordnet_lemma_names env word); reflexivity.
Qed.

Lemma synonyms_of_keyword_eq (env : Collaborators) (keyword : string) (t : trace) :
  synonyms_of_keyword env keyword t =
  match wordnet_synonyms env keyword with
  | Ok [] => (Ok [], t ++ [EvWordnet keyword])
  | Ok candidates =>
      (match similarity env (keyword :: candidates) with
       | Ok similarities => Ok (valid_synonyms candidates similarities)
       | Raise e => Raise e
       end,
       t ++ [EvWordnet keyword; EvEncode (keyword :: candidates)])
  | Raise e => (Raise e, t ++ [EvWordnet keyword])
  end.
Proof.
  unfold synonyms_of_keyword, bind. rewrite get_wordnet_synonyms_eq.
  destruct (wordnet_synonyms env keyword) as [[|c cs]|e]; try reflexivity.
  unfold call, bind, emit, lift, ret. simpl. rewrite <- app_assoc. simpl.
  destruct (similarity env (keyword :: c :: cs)); reflexivity.
Qed.

(** One round of the loop never raises: it adds [accepted env keyword] and
    does [round_events env keyword]. *)
Lemma synonyms_round_trace (env : Collaborators) (keyword : string) (t : trace) :
  try_except (synonyms_of_keyword env keyword) is_Exception
    (fun e => print ("Synonym error for '" ++ keyword ++ "': " ++ str_exn e) ;;; ret [])
    t = (Ok (accepted env keyword), t ++ round_events env keyword).
Proof.
  unfold try_except, accepted, round_events, synonym_error.
  rewrite synonyms_of_keyword_eq.
  destruct (wordnet_synonyms env keyword) as [[|c cs]|e]; simpl.
  - reflexivity.
  - destruct (similarity env (keyword :: c :: cs)); simpl; [reflexivity|].
    unfold bind, print, emit, ret. rewrite <- app_assoc. reflexivity.
  - unfold bind, print, emit, ret. rewrite <- app_assoc. reflexivity.
Qed.

Lemma get_bert_synonyms_loop_trace (env : Collaborators) (keywords synonyms : list string)
  (t : trace) :
  get_bert_synonyms_loop env keywords synonyms t =
  (Ok (PyList.set_update synonyms (List.concat (map (accepted env) keywords))),
   t ++ List.concat (map (round_events env) keywords)).
Proof.
  revert synonyms t. induction keywords as [|k ks IH]; intros synonyms t; simpl.
  - unfold ret. rewrite app_nil_r. reflexivity.
  - rewrite (bind_Ok _ (synonyms_round_trace env k t)), IH.
    rewrite set_update_app, <- app_assoc. reflexivity.
Qed.

(** [get_bert_synonyms] in full: its value and what it does. *)
Lemma get_bert_synonyms_trace (env : Collaborators) (keywords : list string) (t : trace) :
  get_bert_synonyms env keywords t =
  (Ok (set_iter env (first_encountered env keywords)),
   t ++ List.concat (map (round_events env) keywords)).
Proof.
  unfold get_bert_synonyms.
  rewrite (bind_Ok _ (get_bert_synonyms_loop_trace env keywords [] t)).
  unfold ret, first_encountered. rewrite set_update_keep_first. reflexivity.
Qed.

(** [get_bert_synonyms] never raises; it lists the set of the accepted
    synonyms in the set's iteration order. *)
Lemma get_bert_synonyms_eq (env : Collaborators) (keywords : list string) (t : trace) :
  exists t',
    get_bert_synonyms env keywords t =
    (Ok (set_iter env (first_encountered env keywords)), t').
Proof. eexists. apply get_bert_synonyms_trace. Qed.

Lemma query_terms_eq (env : Collaborators) (keywords : list string) (t : trace) :
  exists expanded t',
    get_bert_synonyms env (firstn 3 keywords) t = (Ok expanded, t') /\
    query_terms env keywords t =
    (Ok (keep_first [] (firstn 3 keywords ++ expanded)), t').
Proof.
  destruct (get_bert_synonyms_eq env (firstn 3 keywords) t) as (t1 & E1).
  eexists _, t1. split; [exact E1|].
  unfold query_terms. rewrite (bind_Ok _ E1). unfold ret.
  rewrite dict_fromkeys_keep_first. reflexivity.
Qed.

Lemma valid_synonyms_In (candidates : list string) (similarities : list float) (c : string) :
  In c (valid_synonyms candidates similarities) <->
  exists s, In (c, s) (combine candidates similarities) /\ (0.6 <? s)%float = true.
Proof.
  unfold valid_synonyms. rewrite in_map_iff. split.
  - intros ([c' s] & <- & H). apply filter_In in H as [H1 H2]. eauto.
  - intros (s & H1 & H2). exists (c, s). split; [reflexivity|].
    apply filter_In. auto.
Qed.

Lemma above_threshold (s : float) :
  (0.6 <? s)%float = true -> (s <=? 0.6)%float = false.
Proof.
  intros H. destruct (float_ltb_not_nan _ _ H) as [H1 H2].
  rewrite float_ltb_negb_leb in H by assumption.
  destruct (s <=? 0.6)%float; [discriminate | reflexivity].
Qed.

Lemma formulate_search_query_total (env : Collaborators) (keywords : list string)
  (t : trace) :
  exists query t', formulate_search_query env keywords t = (Ok query, t').
Proof.
  destruct (query_terms_eq env keywords t) as (expanded & t' & _ & E).
  eexists _, t'. unfold formulate_search_query. rewrite (bind_Ok _ E). reflexivity.
Qed.

(** C1. For every keyword list the query terms are pairwise distinct: they
    are the primary terms followed by the expanded synonyms, each kept at
    its first occurrence only; and the query, the terms joined by spaces
    and cut after 300 characters, has at most 300 characters. *)
Theorem query_unique_and_bounded (env : Collaborators) (keywords : list string) (t : trace) :
  exists expanded terms query t',
    get_bert_synonyms env (firstn 3 keywords) t = (Ok expanded, t') /\
    query_terms env keywords t = (Ok terms, t') /\
    terms = keep_first [] (firstn 3 keywords ++ expanded) /\
    NoDup terms /\
    formulate_search_query env keywords t = (Ok query, t') /\
    query = PyStr.slice_to 300 (PyStr.join " " terms) /\
    (String.length query <= 300)%nat.
Proof.
  destruct (query_terms_eq env keywords t) as (expanded & t' & E1 & E2).
  exists expanded, (keep_first [] (firstn 3 keywords ++ expanded)).
  exists (PyStr.slice_to 300
            (PyStr.join " " (keep_first [] (firstn 3 keywords ++ expanded)))), t'.
  repeat split; auto using keep_first_NoDup, slice_to_length.
  unfold formulate_search_query. rewrite (bind_Ok _ E2). reflexivity.
Qed.

(** C2. For every term: when the dictionary gives no candidate the resolver
    yields nothing and only the dictionary has been called; when it gives
    candidates and the similarity service answers, the resolver yields
    exactly the candidates whose similarity is above 0.6; and whatever the
    resolver yields has a similarity above 0.6, never one at or below. *)
Theorem synonym_resolver_threshold (env : Collaborators) (term : string) (t : trace) :
  exists r t',
    synonyms_of_keyword env term t = (r, t') /\
    (wordnet_synonyms env term = Ok [] ->
     r = Ok [] /\ t' = t ++ [EvWordnet term] /\ never is_encode [EvWordnet term]) /\
    (forall candidates similarities,
        wordnet_synonyms env term = Ok candidates -> candidates <> [] ->
        similarity env (term :: candidates) = Ok similarities ->
        r = Ok (valid_synonyms candidates similarities) /\
        forall c, In c (valid_synonyms candidates similarities) <->
                  exists s, In (c, s) (combine candidates similarities) /\
                            (0.6 <? s)%float = true) /\
    (forall returned c,
        r = Ok returned -> In c returned ->
        exists candidates similarities s,
          wordnet_synonyms env term = Ok candidates /\
          similarity env (term :: candidates) = Ok similarities /\
          In (c, s) (combine candidates similarities) /\
          (0.6 <? s)%float = true /\ (s <=? 0.6)%float = false).
Proof.
  exists (fst (synonyms_of_keyword env term t)), (snd (synonyms_of_keyword env term t)).
  split; [apply surjective_pairing|].
  rewrite synonyms_of_keyword_eq. split; [|split].
  - intros ->. repeat split; reflexivity.
  - intros candidates similarities -> Hne ->.
    destruct candidates; [contradiction|].
    split; [reflexivity | apply valid_synonyms_In].
  - intros returned c Hr Hc.
    destruct (wordnet_synonyms env term) as [[|c0 cs]|e]; try discriminate.
    + inversion Hr; subst. destruct Hc.
    + destruct (similarity env (term :: c0 :: cs)) as [sims|e] eqn:Es; try discriminate.
      inversion Hr; subst.
      apply valid_synonyms_In in Hc as (s & H1 & H2).
      exists (c0 :: cs), sims, s. repeat split; auto using above_threshold.
Qed.

(** The resolver on ["happy"], whose candidates score 0.9, 0.6 and 0.3. *)
Lemma synonym_resolver_threshold_witness :
  exists r t',
    synonyms_of_keyword
      (Demo.env Demo.insertion_order Demo.found Demo.emotions []) "happy" [] = (r, t') /\
    r = Ok ["glad"].
Proof.
  destruct (synonym_resolver_threshold
              (Demo.env Demo.insertion_order Demo.found Demo.emotions []) "happy" [])
    as (r & t' & E & _ & H & _).
  exists r, t'. split; [exact E|].
  apply (H ["glad"; "felicitous"; "well chosen"] [0.9; 0.6; 0.3]%float).
  - reflexivity.
  - discriminate.
  - reflexivity.
Defined.

(** The candidates of [get_wordnet_synonyms] hold no underscore. *)
Lemma replace_no_underscore (s : string) :
  PyStr.contains "_" (PyStr.replace "_" " " s) = false.
Proof.
  induction s as [|c s IH]; [reflexivity|].
  cbn [PyStr.contains PyStr.replace PyStr.startswith].
  rewrite IH, orb_false_r, andb_true_r.
  destruct (Ascii.eqb_spec c "_") as [-> | Hne]; [reflexivity|].
  apply Ascii.eqb_neq. congruence.
Qed.

(** C9, as the code has it. For every term the dictionary knows, the
    candidates are the lemma names with every underscore replaced by a
    space, each listed once; they hold no underscore, and their case is the
    dictionary's own. *)
Theorem wordnet_candidates (env : Collaborators) (word : string) (names : list string)
  (t : trace) :
  set_iter_ok env ->
  wordnet_lemma_names env word = Ok names ->
  exists candidates,
    get_wordnet_synonyms env word t = (Ok candidates, t ++ [EvWordnet word]) /\
    NoDup candidates /\
    (forall c, In c candidates <->
               exists n, In n names /\ c = PyStr.replace "_" " " n) /\
    (forall c, In c candidates -> PyStr.contains "_" c = false).
Proof.
  intros Hset Hnames.
  pose proof (Hset _ (set_update_nil_NoDup (map (PyStr.replace "_" " ") names))) as P.
  assert (forall c,
             In c (set_iter env (PyList.set_update [] (map (PyStr.replace "_" " ") names)))
             <-> exists n, In n names /\ c = PyStr.replace "_" " " n) as Hin.
  { intros c. split.
    - intros H. apply (Permutation_in _ P), set_update_nil_In, in_map_iff in H.
      destruct H as (n & <- & Hn). eauto.
    - intros (n & Hn & ->). apply (Permutation_in _ (Permutation_sym P)).
      apply set_update_nil_In, in_map. exact Hn. }
  eexists. split; [|split; [|split]].
  - rewrite get_wordnet_synonyms_eq. unfold wordnet_synonyms. rewrite Hnames. reflexivity.
  - apply (Permutation_NoDup (Permutation_sym P)), set_update_nil_NoDup.
  - exact Hin.
  - intros c Hc. apply Hin in Hc as (n & _ & ->). apply replace_no_underscore.
Qed.

Lemma insertion_order_ok (reply : http_reply) (es : list EmotionScore) (ks : list string) :
  set_iter_ok (Demo.env Demo.insertion_order reply es ks).
Proof. intros s _. reflexivity. Qed.

Lemma hash_order_ok (reply : http_reply) (es : list EmotionScore) (ks : list string) :
  set_iter_ok (Demo.env Demo.hash_order reply es ks).
Proof. intros s _. apply sort_perm. Qed.

Lemma wordnet_candidates_witness :
  exists candidates,
    get_wordnet_synonyms (Demo.env Demo.insertion_order Demo.found Demo.emotions [])
      "happy" [] = (Ok candidates, [EvWordnet "happy"]) /\
    NoDup candidates /\
    In "well chosen" candidates.
Proof.
  destruct (wordnet_candidates _ "happy" _ []
              (insertion_order_ok Demo.found Demo.emotions []) eq_refl)
    as (candidates & E & Hn & Hin & _).
  exists candidates. split; [exact E|]. split; [exact Hn|].
  apply Hin. exists "well_chosen". split; [simpl; tauto | reflexivity].
Defined.

(** C9 as stated fails: the lemma name [Paris] comes back with its capital. *)
Lemma wordnet_candidates_keep_case :
  get_wordnet_synonyms (Demo.env Demo.insertion_order Demo.found Demo.emotions [])
    "paris" [] = (Ok ["Paris"; "City of Light"], [EvWordnet "paris"]) /\
  PyStr.lower "Paris" = "paris" /\
  ~ PyStr.case_normalized "Paris".
Proof. repeat split. discriminate. Qed.

(** C8, as the code has it. For every list of at most 3 pairwise distinct
    keywords, the query terms start with the keyword list itself. *)
Theorem primary_terms_prefix (env : Collaborators) (keywords : list string) (t : trace) :
  (List.length keywords <= 3)%nat ->
  NoDup keywords ->
  exists terms t',
    query_terms env keywords t = (Ok terms, t') /\
    firstn (List.length keywords) terms = keywords.
Proof.
  intros Hlen Hnd.
  destruct (query_terms_eq env keywords t) as (expanded & t' & _ & E).
  eexists _, t'. split; [exact E|].
  rewrite (firstn_all2 (n := 3) keywords) by exact Hlen.
  rewrite keep_first_app, (keep_first_NoDup_id _ Hnd).
  rewrite firstn_app, Nat.sub_diag, firstn_all. simpl. apply app_nil_r.
Qed.

Lemma primary_terms_prefix_witness :
  exists terms t',
    query_terms (Demo.env Demo.insertion_order Demo.found Demo.emotions [])
      ["happy"; "sad"] [] = (Ok terms, t') /\
    firstn 2 terms = ["happy"; "sad"].
Proof.
  apply (primary_terms_prefix
           (Demo.env Demo.insertion_order Demo.found Demo.emotions [])
           ["happy"; "sad"] []).
  - simpl. lia.
  - repeat constructor; simpl; intuition discriminate.
Defined.

(** C8 as stated fails: a keyword given twice is kept once. *)
Lemma primary_terms_repeated :
  (List.length ["joy"; "joy"] <= 3)%nat /\
  query_terms (Demo.env Demo.insertion_order Demo.found Demo.emotions [])
    ["joy"; "joy"] [] = (Ok ["joy"], [EvWordnet "joy"; EvWordnet "joy"]) /\
  firstn (List.length ["joy"; "joy"]) ["joy"] <> ["joy"; "joy"].
Proof. split; [simpl; lia|]. split; [reflexivity | discriminate]. Qed.

(* ----------------------------------------------------------------- *)
(** ** Literature search and the endpoint *)

(** [search_semantic_scholar] sends one request; its result depends on the
    reply only. *)
Lemma search_semantic_scholar_eq (env : Collaborators) (query : string) (t : trace) :
  exists prints,
    search_semantic_scholar env query t =
    (search_result (requests_get env query), t ++ http_get_event query :: prints) /\
    never is_http_get prints.
Proof.
  unfold search_semantic_scholar, try_except, bind, emit, search_result, http_get_event.
  destruct (requests_get env query) as [msg | status body]; simpl.
  - exists [EvPrint ("Semantic Scholar API error: " ++ msg)].
    rewrite <- app_assoc. split; reflexivity.
  - destruct ((400 <=? status)%Z && (status <? 600)%Z); simpl.
    + exists [EvPrint "Semantic Scholar API error: HTTPError"].
      rewrite <- app_assoc. split; reflexivity.
    + destruct body as [v|]; simpl.
      * exists []. unfold lift. destruct (py_get v "data" (PList [])) as [d|e] eqn:E.
        -- split; reflexivity.
        -- destruct v; simpl in E; try discriminate; inversion E; subst;
             split; reflexivity.
      * exists [EvPrint "Semantic Scholar API error: JSONDecodeError"].
        rewrite <- app_assoc. split; reflexivity.
Qed.

Lemma fetch_academic_articles_eq (env : Collaborators) (txt : string)
  (keywords : list string) (t : trace) :
  exists query t1 prints,
    formulate_search_query env keywords t = (Ok query, t1) /\
    fetch_academic_articles env txt keywords t =
    (search_result (requests_get env query), t1 ++ http_get_event query :: prints) /\
    never is_http_get prints.
Proof.
  destruct (formulate_search_query_total env keywords t) as (query & t1 & E).
  destruct (search_semantic_scholar_eq env query t1) as (prints & E' & Hp).
  exists query, t1, prints. split; [exact E|]. split; [|exact Hp].
  unfold fetch_academic_articles. rewrite (bind_Ok _ E). exact E'.
Qed.

Lemma build_report_unfold (env : Collaborators) (request : AnalysisRequest)
  (stripped : string) (t : trace) :
  build_report env request stripped t =
  match emotion_classifier env stripped with
  | Raise e => (Raise e, t ++ [EvClassify stripped])
  | Ok es =>
      match sentiment_analyzer env stripped with
      | Raise e => (Raise e, t ++ [EvClassify stripped; EvSentiment stripped])
      | Ok sent =>
          match extract_keywords env stripped with
          | Raise e => (Raise e, t ++ calls3 stripped)
          | Ok extracted =>
              if wants_sources request (map fst extracted)
              then bind (fetch_academic_articles env stripped (map fst extracted))
                        (fun sources =>
                           lift (report_of (sort_emotions es) sent
                                           (map fst extracted) sources))
                        (t ++ calls3 stripped)
              else (report_of (sort_emotions es) sent (map fst extracted) (PList []),
                    t ++ calls3 stripped)
          end
      end
  end.
Proof.
  unfold build_report, bind, call, emit, lift, ret, calls3. simpl.
  destruct (emotion_classifier env stripped) as [es|e]; [|reflexivity].
  destruct (sentiment_analyzer env stripped) as [sent|e];
    [|rewrite <- app_assoc; reflexivity].
  destruct (extract_keywords env stripped) as [extracted|e];
    rewrite <- !app_assoc; simpl; [|reflexivity].
  destruct (wants_sources request (map fst extracted)); reflexivity.
Qed.

Lemma sort_emotions_perm (es : list EmotionScore) : Permutation (sort_emotions es) es.
Proof. apply sorted_perm. Qed.

Lemma sort_emotions_nil (es : list EmotionScore) : sort_emotions es = [] <-> es = [].
Proof.
  split; intros H.
  - apply Permutation_nil. rewrite <- H. apply sort_emotions_perm.
  - subst. reflexivity.
Qed.

Lemma diversity_defined (sorted_emotions : list EmotionScore) :
  sorted_emotions <> [] -> exists d, diversity sorted_emotions = Ok d.
Proof.
  intros H. unfold diversity, truediv.
  destruct sorted_emotions as [|e l]; [contradiction|].
  destruct (Z.eqb_spec (Z.of_nat (List.length (e :: l))) 0) as [E|_].
  - simpl in E. lia.
  - simpl. eauto.
Qed.

Lemma report_of_inv (sorted_emotions : list EmotionScore) (sent : string * float)
  (keywords : list string) (sources : pyval) (report : Report) :
  report_of sorted_emotions sent keywords sources = Ok report ->
  exists top rest d papers,
    sorted_emotions = top :: rest /\
    diversity sorted_emotions = Ok d /\
    compose_papers sources = Ok papers /\
    report =
    {| sentiment := (fst sent, PyFloat.round (snd sent) 3);
       primary_emotion := (label top, PyFloat.round (score top) 3,
                           get_emotional_intensity (score top));
       secondary_emotions := map (fun e => (label e, PyFloat.round (score e) 3)) rest;
       is_mixed := mixed sorted_emotions;
       diversity_score := d;
       key_phrases := keywords;
       emotional_triggers := triggers keywords sorted_emotions;
       academic_sources := papers;
       full_breakdown := breakdown sorted_emotions |}.
Proof.
  unfold report_of, rbind. intros H.
  destruct sorted_emotions as [|top rest]; [discriminate|]. simpl index0 in H.
  destruct (diversity (top :: rest)) as [d|]; [|discriminate].
  destruct (compose_papers sources) as [papers|]; [|discriminate].
  inversion H; subst. exists top, rest, d, papers. auto.
Qed.

Lemma report_of_defined (sorted_emotions : list EmotionScore) (sent : string * float)
  (keywords : list string) (sources : pyval) (papers : list Paper) :
  sorted_emotions <> [] -> compose_papers sources = Ok papers ->
  exists report,
    report_of sorted_emotions sent keywords sources = Ok report /\
    academic_sources report = papers.
Proof.
  intros Hne Hp. destruct (diversity_defined _ Hne) as (d & Hd).
  unfold report_of, rbind. rewrite Hd, Hp.
  destruct sorted_emotions as [|top rest]; [contradiction|]. simpl.
  eexists. split; reflexivity.
Qed.

Lemma report_of_empty (sent : string * float) (keywords : list string) (sources : pyval) :
  report_of [] sent keywords sources =
  Raise (Exception "IndexError" "list index out of range").
Proof. reflexivity. Qed.

Lemma analyze_emotion_admitted (env : Collaborators) (request : AnalysisRequest)
  (x_api_key : string) (t : trace) :
  admitted env request x_api_key = true ->
  analyze_emotion env request x_api_key t =
  match build_report env request (PyStr.strip (text request)) t with
  | (Ok report, t') => (Returned report, t')
  | (Raise e, t') => (Raised {| status_code := 500; detail := str_exn e |}, t')
  end.
Proof.
  unfold admitted, analyze_emotion. intros H.
  apply andb_prop in H as [H1 H2]. apply negb_true_iff in H1, H2.
  rewrite H1, H2. reflexivity.
Qed.

Lemma analyze_emotion_rejected (env : Collaborators) (request : AnalysisRequest)
  (x_api_key : string) (t : trace) :
  admitted env request x_api_key = false ->
  exists error,
    analyze_emotion env request x_api_key t = (Raised error, t) /\
    (status_code error = 401 \/ status_code error = 400)%Z.
Proof.
  unfold admitted, analyze_emotion. intros H.
  destruct (key_mismatch env x_api_key); simpl in *.
  - eexists. split; [reflexivity|]. left. reflexivity.
  - apply negb_false_iff in H. rewrite H.
    eexists. split; [reflexivity|]. right. reflexivity.
Qed.

Lemma compose_papers_nil : compose_papers (PList []) = Ok [].
Proof. reflexivity. Qed.

Lemma formulate_no_keywords (env : Collaborators) (t : trace) :
  set_iter_ok env -> formulate_search_query env [] t = (Ok "", t).
Proof.
  intros Hset.
  assert (set_iter env [] = []) as E.
  { apply Permutation_nil. symmetry. apply Hset. constructor. }
  unfold formulate_search_query, query_terms, get_bert_synonyms, bind, ret. simpl.
  rewrite E. reflexivity.
Qed.

(** C7. For every request whose keyword list is empty, whatever
    [find_sources] says: the query of an empty keyword list is the empty
    string; the endpoint sends no HTTP request; a report that is returned
    has no academic sources; and a report is returned as soon as the
    request is admitted and the classifiers answer. *)
Theorem no_keywords_no_search (env : Collaborators) (request : AnalysisRequest)
  (x_api_key : string) (t : trace) :
  set_iter_ok env ->
  extract_keywords env (PyStr.strip (text request)) = Ok [] ->
  (forall t0, formulate_search_query env [] t0 = (Ok "", t0)) /\
  (exists added,
      snd (analyze_emotion env request x_api_key t) = t ++ added /\
      never is_http_get added) /\
  (forall report,
      fst (analyze_emotion env request x_api_key t) = Returned report ->
      academic_sources report = []) /\
  (forall es sent,
      admitted env request x_api_key = true ->
      emotion_classifier env (PyStr.strip (text request)) = Ok es -> es <> [] ->
      sentiment_analyzer env (PyStr.strip (text request)) = Ok sent ->
      exists report,
        analyze_emotion env request x_api_key t =
        (Returned report, t ++ calls3 (PyStr.strip (text request))) /\
        academic_sources report = []).
Proof.
  intros Hset Hk. split; [intros t0; apply formulate_no_keywords, Hset|].
  assert (wants_sources request (map fst (@nil (string * float))) = false) as Hw
    by (unfold wants_sources; destruct (find_sources request) as [[|]|]; reflexivity).
  destruct (admitted env request x_api_key) eqn:Ha.
  - rewrite (analyze_emotion_admitted _ _ _ _ Ha), build_report_unfold, Hk, Hw.
    split; [|split].
    + destruct (emotion_classifier env _) as [es|e]; simpl;
        [|eexists; split; reflexivity].
      destruct (sentiment_analyzer env _) as [sent|e]; simpl;
        [|eexists; split; reflexivity].
      destruct (report_of _ _ _ _); simpl; eexists; split; reflexivity.
    + intros report Hr.
      destruct (emotion_classifier env _) as [es|e]; [|discriminate].
      destruct (sentiment_analyzer env _) as [sent|e]; [|discriminate].
      destruct (report_of _ _ _ _) as [r|e] eqn:E; [|discriminate].
      simpl in Hr. inversion Hr; subst.
      apply report_of_inv in E as (top & rest & d & papers & _ & _ & Hp & ->).
      simpl. rewrite compose_papers_nil in Hp. inversion Hp. reflexivity.
    + intros es sent _ -> Hne ->.
      assert (sort_emotions es <> []) as Hs by (rewrite sort_emotions_nil; exact Hne).
      destruct (report_of_defined _ sent (map fst (@nil (string * float))) _ _
                  Hs compose_papers_nil) as (report & -> & Hp).
      exists report. split; [reflexivity | exact Hp].
  - destruct (analyze_emotion_rejected _ request _ t Ha) as (error & E & _).
    rewrite E. split; [|split].
    + exists []. rewrite app_nil_r. split; reflexivity.
    + intros report Hr. discriminate.
    + intros es sent Ha'. discriminate.
Qed.

Lemma no_keywords_no_search_witness :
  exists report,
    analyze_emotion (Demo.env Demo.insertion_order Demo.found Demo.emotions [])
      Demo.request "secret" [] =
    (Returned report, calls3 "I am happy but a little sad") /\
    academic_sources report = [].
Proof.
  destruct (no_keywords_no_search
              (Demo.env Demo.insertion_order Demo.found Demo.emotions [])
              Demo.request "secret" []
              (insertion_order_ok Demo.found Demo.emotions []) eq_refl)
    as (_ & _ & _ & H).
  apply (H Demo.emotions ("POSITIVE", 0.9987%float)).
  - reflexivity.
  - reflexivity.
  - discriminate.
  - reflexivity.
Defined.

(** C10. For an admitted request whose classifier output is not empty, the
    access to the top-ranked emotion and the division by the number of
    emotions both succeed, and a report is returned when no literature
    search is asked for; if the classifier output is empty the endpoint
    raises an HTTP 500 error. *)
Theorem report_building_safe (env : Collaborators) (request : AnalysisRequest)
  (x_api_key : string) (t : trace) (es : list EmotionScore) :
  admitted env request x_api_key = true ->
  emotion_classifier env (PyStr.strip (text request)) = Ok es ->
  (es <> [] ->
   (exists top, index0 (sort_emotions es) = Ok top) /\
   (exists d, diversity (sort_emotions es) = Ok d) /\
   (forall sent extracted,
       sentiment_analyzer env (PyStr.strip (text request)) = Ok sent ->
       extract_keywords env (PyStr.strip (text request)) = Ok extracted ->
       wants_sources request (map fst extracted) = false ->
       exists report,
         fst (analyze_emotion env request x_api_key t) = Returned report)) /\
  (es = [] ->
   exists reason,
     fst (analyze_emotion env request x_api_key t) =
     Raised {| status_code := 500; detail := reason |}).
Proof.
  intros Ha Hes. rewrite (analyze_emotion_admitted _ _ _ _ Ha), build_report_unfold, Hes.
  split.
  - intros Hne.
    assert (sort_emotions es <> []) as Hs by (rewrite sort_emotions_nil; exact Hne).
    split; [|split].
    + destruct (sort_emotions es) as [|top rest]; [contradiction|].
      exists top. reflexivity.
    + apply diversity_defined, Hs.
    + intros sent extracted -> -> ->.
      destruct (report_of_defined _ sent (map fst extracted) _ _ Hs compose_papers_nil)
        as (report & -> & _).
      exists report. reflexivity.
  - intros ->. change (sort_emotions []) with (@nil EmotionScore).
    destruct (sentiment_analyzer env _) as [sent|e]; [|eexists; reflexivity].
    destruct (extract_keywords env _) as [extracted|e]; [|eexists; reflexivity].
    destruct (wants_sources request (map fst extracted)); [|eexists; reflexivity].
    unfold bind.
    destruct (fetch_academic_articles env _ _ _) as [[sources|e] t'];
      eexists; reflexivity.
Qed.

Lemma report_building_safe_witness :
  (exists report,
      fst (analyze_emotion (Demo.env Demo.insertion_order Demo.found Demo.emotions [])
             Demo.request "secret" []) = Returned report).
Proof.
  destruct (report_building_safe
              (Demo.env Demo.insertion_order Demo.found Demo.emotions [])
              Demo.request "secret" [] Demo.emotions eq_refl eq_refl) as [H _].
  destruct H as (_ & _ & H); [discriminate|].
  apply (H ("POSITIVE", 0.9987%float) []); reflexivity.
Defined.

(** C3 fails on the code for a body that is JSON but not an object: the
    reply [200] with body [[]] makes [.get] raise [AttributeError], which
    [except requests.RequestException] does not catch, and the endpoint
    answers 500 instead of a report with no academic sources. *)
Theorem malformed_body_is_fatal :
  search_result (Response 200 (Some (PList []))) =
  Raise (Exception "AttributeError" "'list' object has no attribute 'get'") /\
  fst (analyze_emotion
         (Demo.env Demo.insertion_order (Response 200 (Some (PList [])))
                   Demo.emotions ["happy"; "sad"])
         Demo.request "secret" []) =
  Raised {| status_code := 500; detail := "'list' object has no attribute 'get'" |}.
Proof. split; reflexivity. Qed.

(* ----------------------------------------------------------------- *)
(** ** Emotion aggregation *)

Lemma score_lt_asym (a b : EmotionScore) :
  scored a -> scored b -> score_lt a b = true -> score_lt b a = false.
Proof. intros _ _. apply float_ltb_asym. Qed.

Lemma score_lt_negtrans (a b c : EmotionScore) :
  scored a -> scored b -> scored c ->
  score_lt a b = false -> score_lt b c = false -> score_lt a c = false.
Proof. intros _ Hb _. apply float_ltb_negtrans, Hb. Qed.

Lemma StronglySorted_weaken {A} (R R' : A -> A -> Prop) (P : A -> Prop) (l : list A) :
  (forall a b, P a -> P b -> R a b -> R' a b) ->
  Forall P l -> StronglySorted R l -> StronglySorted R' l.
Proof.
  intros HR HP Hs. induction Hs as [|x l Hs IH Hx]; [constructor|].
  inversion HP as [|? ? Px Pl]; subst.
  constructor; [apply IH, Pl|].
  rewrite Forall_forall in *. intros y Hy. apply HR; auto.
Qed.

Lemma sort_emotions_scored (es : list EmotionScore) :
  Forall scored es -> Forall scored (sort_emotions es).
Proof.
  intros H. eapply Permutation_Forall; [symmetry; apply sort_emotions_perm | exact H].
Qed.

(** The ranking is in descending order of the scores. *)
Lemma sort_emotions_descending (es : list EmotionScore) :
  Forall scored es ->
  StronglySorted (fun a b => (score b <=? score a)%float = true) (sort_emotions es).
Proof.
  intros H.
  apply StronglySorted_weaken with (R := PyList.descending score_lt) (P := scored).
  - intros a b Ha Hb Hab. unfold PyList.descending, score_lt in Hab.
    rewrite float_ltb_negb_leb in Hab by assumption.
    apply negb_false_iff. exact Hab.
  - apply sort_emotions_scored, H.
  - apply sorted_reverse_descending with (good := scored);
      [exact score_lt_asym | exact score_lt_negtrans | exact H].
Qed.

Lemma same_key_score (k e : EmotionScore) :
  scored k -> scored e ->
  PyList.same_key score_lt k e = (score e =? score k)%float.
Proof.
  intros Hk He. unfold PyList.same_key, score_lt.
  rewrite (float_eqb_ltb (score e) (score k)) by assumption.
  apply andb_comm.
Qed.

Lemma filter_ext_Forall {A} (p q : A -> bool) (P : A -> Prop) (l : list A) :
  (forall a, P a -> p a = q a) -> Forall P l -> filter p l = filter q l.
Proof.
  intros H HP. apply filter_ext_in. rewrite Forall_forall in HP. auto.
Qed.

(** Emotions of equal score keep the order the classifier gave them. *)
Lemma sort_emotions_stable (k : EmotionScore) (es : list EmotionScore) :
  scored k -> Forall scored es ->
  filter (fun e => (score e =? score k)%float) (sort_emotions es) =
  filter (fun e => (score e =? score k)%float) es.
Proof.
  intros Hk Hes.
  rewrite <- (filter_ext_Forall (PyList.same_key score_lt k) _ scored
                (sort_emotions es)); auto using same_key_score, sort_emotions_scored.
  rewrite <- (filter_ext_Forall (PyList.same_key score_lt k) _ scored es);
    auto using same_key_score.
  apply sorted_stable with (good := scored);
    [exact score_lt_asym | exact score_lt_negtrans | exact Hk | exact Hes].
Qed.

Lemma float_leb_refl (x : float) : PrimFloat.is_nan x = false -> (x <=? x)%float = true.
Proof. intros H. float_order. Qed.

Ltac bucket_cases :=
  repeat split; intros;
  repeat match goal with H : _ /\ _ |- _ => destruct H end;
  try reflexivity; try discriminate.

Lemma intensity_buckets (s : float) :
  (get_emotional_intensity s = "very high" <-> (0.9 <=? s)%float = true) /\
  (get_emotional_intensity s = "high" <->
   (0.7 <=? s)%float = true /\ (s <? 0.9)%float = true) /\
  (get_emotional_intensity s = "moderate" <->
   (0.5 <=? s)%float = true /\ (s <? 0.7)%float = true) /\
  (get_emotional_intensity s = "low" <-> (0.5 <=? s)%float = false).
Proof.
  assert (forall c, PrimFloat.is_nan c = false -> PrimFloat.is_nan s = false ->
                    (s <? c)%float = negb (c <=? s)%float) as L
    by (intros; apply float_ltb_negb_leb; assumption).
  assert (forall c, (c <=? s)%float = true -> PrimFloat.is_nan s = false) as N
    by (intros c H; apply (float_leb_not_nan _ _ H)).
  assert ((0.9 <=? s)%float = true -> (0.7 <=? s)%float = true) as M1
    by (apply float_leb_trans; reflexivity).
  assert ((0.7 <=? s)%float = true -> (0.5 <=? s)%float = true) as M2
    by (apply float_leb_trans; reflexivity).
  unfold get_emotional_intensity.
  destruct (0.9 <=? s)%float eqn:E9;
    [|destruct (0.7 <=? s)%float eqn:E7; [|destruct (0.5 <=? s)%float eqn:E5]].
  - specialize (M1 eq_refl). specialize (M2 M1). pose proof (N _ E9) as Hs.
    rewrite !L by (reflexivity || assumption). rewrite ?E9, ?M1, ?M2. simpl.
    bucket_cases.
  - specialize (M2 eq_refl). pose proof (N _ E7) as Hs.
    rewrite !L by (reflexivity || assumption). rewrite ?E9, ?E7, ?M2. simpl.
    bucket_cases.
  - pose proof (N _ E5) as Hs.
    rewrite !L by (reflexivity || assumption). rewrite ?E9, ?E7, ?E5. simpl.
    bucket_cases.
  - bucket_cases.
Qed.

(** C5. For every non-empty sequence of emotion scores: the ranking is a
    permutation of it in descending order of score, emotions of equal score
    keeping the classifier's order; the primary emotion is the first of the
    ranking and no score exceeds its own; and its intensity is "very high"
    iff the score is at least 0.9, "high" iff it is at least 0.7 and below
    0.9, "moderate" iff it is at least 0.5 and below 0.7, and "low"
    otherwise. *)
Theorem emotion_ranking (es : list EmotionScore) :
  es <> [] -> Forall scored es ->
  Permutation (sort_emotions es) es /\
  StronglySorted (fun a b => (score b <=? score a)%float = true) (sort_emotions es) /\
  (forall k, scored k ->
             filter (fun e => (score e =? score k)%float) (sort_emotions es) =
             filter (fun e => (score e =? score k)%float) es) /\
  (exists top rest,
      sort_emotions es = top :: rest /\
      (forall e, In e es -> (score e <=? score top)%float = true) /\
      forall sent keywords sources report,
        report_of (sort_emotions es) sent keywords sources = Ok report ->
        primary_emotion report =
        (label top, PyFloat.round (score top) 3, get_emotional_intensity (score top))) /\
  (forall s : float,
      (get_emotional_intensity s = "very high" <-> (0.9 <=? s)%float = true) /\
      (get_emotional_intensity s = "high" <->
       (0.7 <=? s)%float = true /\ (s <? 0.9)%float = true) /\
      (get_emotional_intensity s = "moderate" <->
       (0.5 <=? s)%float = true /\ (s <? 0.7)%float = true) /\
      (get_emotional_intensity s = "low" <-> (0.5 <=? s)%float = false)).
Proof.
  intros Hne Hes.
  split; [apply sort_emotions_perm|].
  split; [apply sort_emotions_descending, Hes|].
  split; [intros k Hk; apply sort_emotions_stable; assumption|].
  split; [|apply intensity_buckets].
  pose proof (sort_emotions_descending es Hes) as Hs.
  pose proof (sort_emotions_scored es Hes) as Hg.
  pose proof (sort_emotions_perm es) as Hp.
  destruct (sort_emotions es) as [|top rest] eqn:E.
  - apply (proj1 (sort_emotions_nil es)) in E. contradiction.
  - exists top, rest. split; [reflexivity|]. split.
    + intros e He. apply (Permutation_in _ (Permutation_sym Hp)) in He.
      inversion Hs as [|? ? _ Hall]; subst. inversion Hg; subst.
      destruct He as [<- | He].
      * apply float_leb_refl. assumption.
      * rewrite Forall_forall in Hall. apply Hall, He.
    + intros sent keywords sources report Hr.
      apply report_of_inv in Hr as (top' & rest' & d & papers & E' & _ & _ & ->).
      inversion E'; subst. reflexivity.
Qed.

Lemma emotion_ranking_witness :
  Permutation (sort_emotions Demo.tied_emotions) Demo.tied_emotions /\
  map label (sort_emotions Demo.tied_emotions) = ["joy"; "surprise"; "fear"; "anger"].
Proof.
  split; [|reflexivity].
  apply (emotion_ranking Demo.tied_emotions).
  - discriminate.
  - repeat constructor.
Defined.

Lemma Permutation_filter_length {A} (p : A -> bool) (l l' : list A) :
  Permutation l l' -> List.length (filter p l) = List.length (filter p l').
Proof.
  induction 1 as [|x l l' _ IH|x y l|l l' l'' _ IH1 _ IH2]; simpl.
  - reflexivity.
  - destruct (p x); simpl; congruence.
  - destruct (p x), (p y); reflexivity.
  - congruence.
Qed.

Lemma diversity_eq (es : list EmotionScore) :
  es <> [] ->
  diversity (sort_emotions es) =
  Ok (PyFloat.round
        (PyFloat.int_truediv
           (Z.of_nat (List.length (filter (fun e => (0.1 <? score e)%float) es)))
           (Z.of_nat (List.length es))) 3).
Proof.
  intros Hne. unfold diversity, truediv, rbind.
  rewrite (Permutation_filter_length _ _ _ (sort_emotions_perm es)).
  rewrite (Permutation_length (sort_emotions_perm es)).
  destruct (Z.eqb_spec (Z.of_nat (List.length es)) 0) as [E|_]; [|reflexivity].
  destruct es; [contradiction | simpl in E; lia].
Qed.

Lemma mixed_iff (sorted_emotions : list EmotionScore) :
  mixed sorted_emotions = true <->
  (2 <= List.length sorted_emotions)%nat /\
  exists e0 e1 rest,
    sorted_emotions = e0 :: e1 :: rest /\ (score e0 - score e1 <? 0.2)%float = true.
Proof.
  destruct sorted_emotions as [|e0 [|e1 rest]]; simpl.
  - split; [discriminate | intros [H _]; lia].
  - split; [discriminate | intros [H _]; lia].
  - split.
    + intros H. split; [lia|]. exists e0, e1, rest. auto.
    + intros (_ & a & b & r & E & H). inversion E; subst. exact H.
Qed.

(** C6. For every non-empty sequence of emotion scores a report can be
    composed, and in it: [is_mixed] holds iff there are at least 2 emotions
    and the top score of the ranking minus the second one is less than 0.2;
    [diversity_score] is the number of emotions scoring above 0.1 divided
    by the number of emotions, rounded to 3 decimals. For the scores
    0.55 and 0.45 these are [true] and [1.0]. *)
Theorem emotional_complexity (es : list EmotionScore) (sent : string * float)
  (keywords : list string) :
  es <> [] ->
  (exists report,
      report_of (sort_emotions es) sent keywords (PList []) = Ok report) /\
  (forall sources report,
      report_of (sort_emotions es) sent keywords sources = Ok report ->
      (is_mixed report = true <->
       (2 <= List.length es)%nat /\
       exists e0 e1 rest,
         sort_emotions es = e0 :: e1 :: rest /\
         (score e0 - score e1 <? 0.2)%float = true) /\
      diversity_score report =
      PyFloat.round
        (PyFloat.int_truediv
           (Z.of_nat (List.length (filter (fun e => (0.1 <? score e)%float) es)))
           (Z.of_nat (List.length es))) 3) /\
  (forall l1 l2 sources report,
      report_of (sort_emotions [ {| label := l1; score := 0.55 |};
                                 {| label := l2; score := 0.45 |} ])
        sent keywords sources = Ok report ->
      is_mixed report = true /\ diversity_score report = 1%float).
Proof.
  intros Hne.
  assert (sort_emotions es <> []) as Hs by (rewrite sort_emotions_nil; exact Hne).
  split; [|split].
  - destruct (report_of_defined _ sent keywords _ _ Hs compose_papers_nil)
      as (report & E & _).
    exists report. exact E.
  - intros sources report Hr.
    apply report_of_inv in Hr as (top & rest & d & papers & _ & Hd & _ & ->).
    simpl. split.
    + rewrite mixed_iff, (Permutation_length (sort_emotions_perm es)). reflexivity.
    + rewrite diversity_eq in Hd by exact Hne. inversion Hd. reflexivity.
  - intros l1 l2 sources report Hr.
    apply report_of_inv in Hr as (top & rest & d & papers & _ & Hd & _ & ->).
    simpl. split; [reflexivity|].
    vm_compute in Hd. inversion Hd. reflexivity.
Qed.

Lemma emotional_complexity_witness :
  exists report,
    report_of (sort_emotions Demo.emotions) ("POSITIVE", 0.9987%float) [] (PList [])
    = Ok report /\
    is_mixed report = true /\ diversity_score report = 1%float.
Proof.
  destruct (emotional_complexity Demo.emotions ("POSITIVE", 0.9987%float) [])
    as ((report & E) & _ & H); [discriminate|].
  exists report. split; [exact E|].
  apply (H "joy" "sadness" (PList [])). exact E.
Defined.

(* ----------------------------------------------------------------- *)
(** ** Determinism and the order of the synonyms *)

(** The report depends on the search only through the endpoint's reply. *)
Lemma build_report_constant_reply (env : Collaborators) (request : AnalysisRequest)
  (stripped : string) (t : trace) (reply : http_reply) :
  (forall q, requests_get env q = reply) ->
  fst (build_report env request stripped t) =
  (es <~ emotion_classifier env stripped ;;
   sent <~ sentiment_analyzer env stripped ;;
   extracted <~ extract_keywords env stripped ;;
   sources <~ (if wants_sources request (map fst extracted)
               then search_result reply else Ok (PList [])) ;;
   report_of (sort_emotions es) sent (map fst extracted) sources).
Proof.
  intros Hreply. rewrite build_report_unfold. unfold rbind.
  destruct (emotion_classifier env stripped) as [es|e]; [|reflexivity].
  destruct (sentiment_analyzer env stripped) as [sent|e]; [|reflexivity].
  destruct (extract_keywords env stripped) as [extracted|e]; [|reflexivity].
  destruct (wants_sources request (map fst extracted)); [|reflexivity].
  destruct (fetch_academic_articles_eq env stripped (map fst extracted)
              (t ++ calls3 stripped)) as (query & t1 & prints & _ & E & _).
  unfold bind. rewrite E, Hreply.
  destruct (search_result reply); reflexivity.
Qed.

Lemma analyze_emotion_fst (env : Collaborators) (request : AnalysisRequest)
  (x_api_key : string) (t : trace) :
  fst (analyze_emotion env request x_api_key t) =
  if key_mismatch env x_api_key
  then Raised {| status_code := 401; detail := "Invalid API key" |}
  else if (String.eqb (PyStr.strip (text request)) ""
           || (1000 <? String.length (PyStr.strip (text request)))%nat)%bool
       then Raised {| status_code := 400; detail := "Invalid text input" |}
       else match fst (build_report env request (PyStr.strip (text request)) t) with
            | Ok report => Returned report
            | Raise e => Raised {| status_code := 500; detail := str_exn e |}
            end.
Proof.
  unfold analyze_emotion.
  destruct (key_mismatch env x_api_key); [reflexivity|].
  destruct (_ || _)%bool; [reflexivity|].
  destruct (build_report env request _ t) as [[r|e] t']; reflexivity.
Qed.

(** C4, as the code has it. Two runs on the same request with the same
    collaborator responses return the same response, whatever order sets
    are iterated in; the synonyms of the query are the accepted ones, each
    once, in the iteration order of the synonym set, which is a permutation
    of the order in which they were first met. *)
Theorem pipeline_determinism (env1 env2 : Collaborators) (request : AnalysisRequest)
  (x_api_key : string) (t1 t2 : trace) (reply : http_reply) (keywords : list string) :
  set_iter_ok env1 ->
  api_key_env env1 = api_key_env env2 ->
  (forall txt, emotion_classifier env1 txt = emotion_classifier env2 txt) ->
  (forall txt, sentiment_analyzer env1 txt = sentiment_analyzer env2 txt) ->
  (forall txt, extract_keywords env1 txt = extract_keywords env2 txt) ->
  (forall q, requests_get env1 q = reply) ->
  (forall q, requests_get env2 q = reply) ->
  fst (analyze_emotion env1 request x_api_key t1) =
  fst (analyze_emotion env2 request x_api_key t2) /\
  exists synonyms t',
    get_bert_synonyms env1 keywords t1 = (Ok synonyms, t') /\
    synonyms = set_iter env1 (first_encountered env1 keywords) /\
    Permutation synonyms (first_encountered env1 keywords).
Proof.
  intros Hset Hkey Hc Hs Hk H1 H2. split.
  - rewrite !analyze_emotion_fst.
    unfold key_mismatch. rewrite Hkey.
    rewrite (build_report_constant_reply env1 _ _ _ reply H1).
    rewrite (build_report_constant_reply env2 _ _ _ reply H2).
    rewrite Hc, Hs, Hk. reflexivity.
  - destruct (get_bert_synonyms_eq env1 keywords t1) as (t' & E).
    eexists _, t'. split; [exact E|]. split; [reflexivity|].
    apply Hset. apply keep_first_NoDup.
Qed.

Lemma pipeline_determinism_witness :
  fst (analyze_emotion
         (Demo.env Demo.hash_order Demo.found Demo.emotions ["happy"; "sad"])
         Demo.request "secret" []) =
  fst (analyze_emotion
         (Demo.env Demo.insertion_order Demo.found Demo.emotions ["happy"; "sad"])
         Demo.request "secret" []) /\
  exists synonyms t',
    get_bert_synonyms
      (Demo.env Demo.hash_order Demo.found Demo.emotions ["happy"; "sad"])
      ["happy"; "sad"] [] = (Ok synonyms, t') /\
    synonyms = ["blue"; "glad"] /\
    Permutation synonyms ["glad"; "blue"].
Proof.
  apply (pipeline_determinism
           (Demo.env Demo.hash_order Demo.found Demo.emotions ["happy"; "sad"])
           (Demo.env Demo.insertion_order Demo.found Demo.emotions ["happy"; "sad"])
           Demo.request "secret" [] [] Demo.found ["happy"; "sad"]).
  - apply hash_order_ok.
  - reflexivity.
  - reflexivity.
  - reflexivity.
  - reflexivity.
  - reflexivity.
  - reflexivity.
Defined.

(** C4 as stated fails: with the two synonyms ["glad"] and ["blue"] met in
    this order, a set that iterates ["blue"] first puts it first in the
    query. *)
Lemma synonym_order_is_set_order :
  set_iter_ok (Demo.env Demo.hash_order Demo.found Demo.emotions []) /\
  first_encountered
    (Demo.env Demo.hash_order Demo.found Demo.emotions []) ["happy"; "sad"]
  = ["glad"; "blue"] /\
  fst (get_bert_synonyms
         (Demo.env Demo.hash_order Demo.found Demo.emotions []) ["happy"; "sad"] [])
  = Ok ["blue"; "glad"] /\
  fst (formulate_search_query
         (Demo.env Demo.hash_order Demo.found Demo.emotions []) ["happy"; "sad"] [])
  = Ok "happy sad blue glad" /\
  ["blue"; "glad"] <> ["glad"; "blue"].
Proof.
  split; [apply hash_order_ok|]. repeat split. discriminate.
Qed.

(* ----------------------------------------------------------------- *)
(** ** Further properties of the literature search *)

(** X1. On a transport failure, a status in 400..599 or a body that is not
    JSON, [search_semantic_scholar] returns the empty list, having sent one
    request and printed one line. *)
Theorem search_tolerates_failures (env : Collaborators) (query : string) (t : trace) :
  failed_reply (requests_get env query) = true ->
  exists line,
    search_semantic_scholar env query t =
    (Ok (PList []),
     t ++ [http_get_event query; EvPrint ("Semantic Scholar API error: " ++ line)]).
Proof.
  unfold search_semantic_scholar, try_except, bind, emit, http_get_event, failed_reply.
  destruct (requests_get env query) as [msg | status body]; simpl; intros H.
  - exists msg. rewrite <- app_assoc. reflexivity.
  - destruct ((400 <=? status)%Z && (status <? 600)%Z); simpl in *.
    + exists "HTTPError". rewrite <- app_assoc. reflexivity.
    + destruct body; [discriminate|]. simpl.
      exists "JSONDecodeError". rewrite <- app_assoc. reflexivity.
Qed.

Lemma search_tolerates_failures_witness :
  exists line,
    search_semantic_scholar
      (Demo.env Demo.insertion_order (Response 503 None) Demo.emotions [])
      "happy sad" [] =
    (Ok (PList []),
     [http_get_event "happy sad"; EvPrint ("Semantic Scholar API error: " ++ line)]).
Proof.
  apply (search_tolerates_failures
           (Demo.env Demo.insertion_order (Response 503 None) Demo.emotions [])
           "happy sad" []).
  reflexivity.
Defined.

Lemma dict_get_absent {V} (d : list (string * V)) (k : string) (default : V) :
  ~ In k (map fst d) -> PyList.dict_get d k default = default.
Proof.
  induction d as [|[k' v] d IH]; intros H; simpl; [reflexivity|].
  destruct (String.eqb_spec k k') as [-> | _].
  - exfalso. apply H. left. reflexivity.
  - apply IH. intros Hin. apply H. right. exact Hin.
Qed.

Lemma dict_get_present {V} (d : list (string * V)) (k : string) (v default : V) :
  NoDup (map fst d) -> In (k, v) d -> PyList.dict_get d k default = v.
Proof.
  induction d as [|[k' v'] d IH]; intros Hn Hin; simpl; [destruct Hin|].
  inversion Hn as [|? ? Hk Hn']; subst.
  destruct Hin as [E | Hin].
  - inversion E; subst. rewrite String.eqb_refl. reflexivity.
  - destruct (String.eqb_spec k k') as [-> | _]; [|apply IH; assumption].
    exfalso. apply Hk. change k' with (fst (k', v)). apply in_map, Hin.
Qed.

(** X2. When the endpoint answers with a status outside 400..599 and a JSON
    object, [search_semantic_scholar] returns what the object holds under
    ["data"], and the empty list if it holds nothing there; one request is
    sent and nothing is printed. *)
Theorem search_returns_data (env : Collaborators) (query : string) (t : trace)
  (status : Z) (d : list (string * pyval)) :
  requests_get env query = Response status (Some (PDict d)) ->
  (status < 400 \/ 600 <= status)%Z ->
  search_semantic_scholar env query t =
  (Ok (PyList.dict_get d "data" (PList [])), t ++ [http_get_event query]) /\
  (~ In "data" (map fst d) ->
   search_semantic_scholar env query t = (Ok (PList []), t ++ [http_get_event query])) /\
  (forall v, NoDup (map fst d) -> In ("data", v) d ->
   search_semantic_scholar env query t = (Ok v, t ++ [http_get_event query])).
Proof.
  intros Hreply Hstatus.
  assert (search_semantic_scholar env query t =
          (Ok (PyList.dict_get d "data" (PList [])), t ++ [http_get_event query])) as E.
  { unfold search_semantic_scholar, try_except, bind, emit, http_get_event.
    rewrite Hreply.
    assert (((400 <=? status) && (status <? 600))%Z = false) as ->
      by (apply andb_false_iff; rewrite Z.leb_gt, Z.ltb_ge; lia).
    reflexivity. }
  split; [exact E|]. split.
  - intros Habs. rewrite E, dict_get_absent by exact Habs. reflexivity.
  - intros v Hn Hin. rewrite E, (dict_get_present d "data" v) by assumption. reflexivity.
Qed.

Lemma search_returns_data_witness :
  search_semantic_scholar
    (Demo.env Demo.insertion_order Demo.found Demo.emotions []) "happy" [] =
  (Ok (PList [Demo.paper]), [http_get_event "happy"]).
Proof.
  destruct (search_returns_data
              (Demo.env Demo.insertion_order Demo.found Demo.emotions []) "happy" [] 200
              [("total", PInt 1); ("data", PList [Demo.paper])] eq_refl) as [E _].
  - left. lia.
  - exact E.
Defined.

(** X3. [search_semantic_scholar] never lets a [RequestException] escape: what
    it raises, if anything, is of another class. *)
Theorem search_raises_no_request_exception (env : Collaborators) (query : string)
  (t : trace) :
  match fst (search_semantic_scholar env query t) with
  | Ok _ => True
  | Raise e => is_RequestException e = false
  end.
Proof.
  destruct (search_semantic_scholar_eq env query t) as (prints & -> & _). simpl.
  unfold search_result.
  destruct (requests_get env query) as [m | status body]; [exact I|].
  destruct ((400 <=? status)%Z && (status <? 600)%Z); [exact I|].
  destruct body as [[]|]; simpl; auto.
Qed.

(* ----------------------------------------------------------------- *)
(** ** Further properties of the endpoint *)

(** X4. When the literature search fails in a way [search_semantic_scholar]
    recovers from, an admitted request still gets its report, with no
    academic sources. *)
Theorem report_survives_search_failure (env : Collaborators) (request : AnalysisRequest)
  (x_api_key : string) (t : trace) (es : list EmotionScore) (sent : string * float)
  (extracted : list (string * float)) :
  admitted env request x_api_key = true ->
  emotion_classifier env (PyStr.strip (text request)) = Ok es -> es <> [] ->
  sentiment_analyzer env (PyStr.strip (text request)) = Ok sent ->
  extract_keywords env (PyStr.strip (text request)) = Ok extracted ->
  (forall q, failed_reply (requests_get env q) = true) ->
  exists report,
    fst (analyze_emotion env request x_api_key t) = Returned report /\
    academic_sources report = [] /\
    key_phrases report = map fst extracted.
Proof.
  intros Ha Hes Hne Hsent Hk Hfail.
  assert (sort_emotions es <> []) as Hs by (rewrite sort_emotions_nil; exact Hne).
  rewrite (analyze_emotion_admitted _ _ _ _ Ha), build_report_unfold, Hes, Hsent, Hk.
  destruct (report_of_defined _ sent (map fst extracted) _ _ Hs compose_papers_nil)
    as (report & E & Hp).
  assert (key_phrases report = map fst extracted) as Hkp.
  { apply report_of_inv in E as (? & ? & ? & ? & _ & _ & _ & ->). reflexivity. }
  destruct (wants_sources request (map fst extracted)).
  - destruct (fetch_academic_articles_eq env (PyStr.strip (text request))
                (map fst extracted) (t ++ calls3 (PyStr.strip (text request))))
      as (query & t1 & prints & Hq & Hf & _).
    assert (search_result (requests_get env query) = Ok (PList [])) as Hr.
    { specialize (Hfail query). unfold failed_reply, search_result in *.
      destruct (requests_get env query) as [m | status body]; [reflexivity|].
      destruct ((400 <=? status)%Z && (status <? 600)%Z); [reflexivity|].
      destruct body; [discriminate | reflexivity]. }
    unfold bind. rewrite Hf, Hr. unfold lift. rewrite E.
    exists report. auto.
  - rewrite E. exists report. auto.
Qed.

Lemma report_survives_search_failure_witness :
  exists report,
    fst (analyze_emotion
           (Demo.env Demo.insertion_order (TransportFailure "timed out")
                     Demo.emotions ["happy"; "sad"])
           Demo.request "secret" []) = Returned report /\
    academic_sources report = [] /\
    key_phrases report = ["happy"; "sad"].
Proof.
  apply (report_survives_search_failure
           (Demo.env Demo.insertion_order (TransportFailure "timed out")
                     Demo.emotions ["happy"; "sad"])
           Demo.request "secret" [] Demo.emotions ("POSITIVE", 0.9987%float)
           [("happy", 0.5%float); ("sad", 0.5%float)]).
  - reflexivity.
  - reflexivity.
  - discriminate.
  - reflexivity.
  - reflexivity.
  - reflexivity.
Defined.

(** X5. A request whose key is not the configured one is refused with status
    401 before anything else happens, whatever its text; this covers every
    request when [API_KEY] is not set. *)
Theorem wrong_key_is_unauthorized (env : Collaborators) (request : AnalysisRequest)
  (x_api_key : string) (t : trace) :
  api_key_env env <> Some x_api_key ->
  analyze_emotion env request x_api_key t =
  (Raised {| status_code := 401; detail := "Invalid API key" |}, t).
Proof.
  intros H. unfold analyze_emotion, key_mismatch.
  destruct (api_key_env env) as [k|]; [|reflexivity].
  destruct (String.eqb_spec x_api_key k) as [-> | _]; [contradiction | reflexivity].
Qed.

Lemma wrong_key_is_unauthorized_witness :
  analyze_emotion (Demo.env Demo.insertion_order Demo.found Demo.emotions [])
    Demo.request "guess" [] =
  (Raised {| status_code := 401; detail := "Invalid API key" |}, []).
Proof.
  apply (wrong_key_is_unauthorized
           (Demo.env Demo.insertion_order Demo.found Demo.emotions [])
           Demo.request "guess" []).
  discriminate.
Defined.

Lemma lstrip_spaces (s : string) :
  forallb PyStr.is_space (list_ascii_of_string s) = true -> PyStr.lstrip s = "".
Proof.
  induction s as [|c s IH]; simpl; [reflexivity|].
  intros H. apply andb_prop in H as [Hc Hs]. rewrite Hc. apply IH, Hs.
Qed.

(** X6. With the right key, a text that is empty or only whitespace, or whose
    stripped form has more than 1000 characters, is refused with status
    400 and no collaborator is called. *)
Theorem invalid_text_is_rejected (env : Collaborators) (request : AnalysisRequest)
  (x_api_key : string) (t : trace) :
  api_key_env env = Some x_api_key ->
  forallb PyStr.is_space (list_ascii_of_string (text request)) = true \/
  (1000 < String.length (PyStr.strip (text request)))%nat ->
  analyze_emotion env request x_api_key t =
  (Raised {| status_code := 400; detail := "Invalid text input" |}, t).
Proof.
  intros Hk H. unfold analyze_emotion, key_mismatch. rewrite Hk, String.eqb_refl. simpl.
  destruct H as [H | H].
  - unfold PyStr.strip. rewrite (lstrip_spaces _ H). reflexivity.
  - apply Nat.ltb_lt in H. rewrite H, orb_true_r. reflexivity.
Qed.

Lemma invalid_text_is_rejected_witness :
  analyze_emotion (Demo.env Demo.insertion_order Demo.found Demo.emotions [])
    {| text := "   "; find_sources := Some true |} "secret" [] =
  (Raised {| status_code := 400; detail := "Invalid text input" |}, []).
Proof.
  apply (invalid_text_is_rejected
           (Demo.env Demo.insertion_order Demo.found Demo.emotions [])
           {| text := "   "; find_sources := Some true |} "secret" []).
  - reflexivity.
  - left. reflexivity.
Defined.

(** X7. Inside the [try] block every exception becomes status 500 with the
    exception's text as detail: when a classifier or the keyword extractor
    raises, the collaborators after it are not called, and an admitted
    request is never answered with another error status. *)
Theorem failures_become_500 (env : Collaborators) (request : AnalysisRequest)
  (x_api_key : string) (t : trace) :
  admitted env request x_api_key = true ->
  (forall e,
      emotion_classifier env (PyStr.strip (text request)) = Raise e ->
      analyze_emotion env request x_api_key t =
      (Raised {| status_code := 500; detail := str_exn e |},
       t ++ [EvClassify (PyStr.strip (text request))])) /\
  (forall es e,
      emotion_classifier env (PyStr.strip (text request)) = Ok es ->
      sentiment_analyzer env (PyStr.strip (text request)) = Raise e ->
      analyze_emotion env request x_api_key t =
      (Raised {| status_code := 500; detail := str_exn e |},
       t ++ [EvClassify (PyStr.strip (text request));
             EvSentiment (PyStr.strip (text request))])) /\
  (forall es sent e,
      emotion_classifier env (PyStr.strip (text request)) = Ok es ->
      sentiment_analyzer env (PyStr.strip (text request)) = Ok sent ->
      extract_keywords env (PyStr.strip (text request)) = Raise e ->
      analyze_emotion env request x_api_key t =
      (Raised {| status_code := 500; detail := str_exn e |},
       t ++ calls3 (PyStr.strip (text request)))) /\
  (forall error,
      fst (analyze_emotion env request x_api_key t) = Raised error ->
      status_code error = 500%Z).
Proof.
  intros Ha. rewrite (analyze_emotion_admitted _ _ _ _ Ha), build_report_unfold.
  split; [|split; [|split]].
  - intros e ->. reflexivity.
  - intros es e -> ->. reflexivity.
  - intros es sent e -> -> ->. reflexivity.
  - intros error.
    destruct (match emotion_classifier env _ with Ok _ => _ | Raise _ => _ end)
      as [[r|e] t']; simpl; intros H; inversion H; reflexivity.
Qed.

Lemma failures_become_500_witness :
  fst (analyze_emotion (Demo.env Demo.insertion_order Demo.found [] [])
         Demo.request "secret" []) =
  Raised {| status_code := 500; detail := "list index out of range" |} /\
  status_code {| status_code := 500; detail := "list index out of range" |} = 500%Z.
Proof.
  split; [reflexivity|].
  destruct (failures_become_500 (Demo.env Demo.insertion_order Demo.found [] [])
              Demo.request "secret" [] eq_refl) as (_ & _ & _ & H).
  apply H. reflexivity.
Defined.

(* ----------------------------------------------------------------- *)
(** ** Further properties of synonym expansion *)

Lemma formulate_search_query_trace (env : Collaborators) (keywords : list string)
  (t : trace) :
  snd (formulate_search_query env keywords t) =
  t ++ List.concat (map (round_events env) (firstn 3 keywords)).
Proof.
  unfold formulate_search_query, query_terms.
  rewrite (bind_Ok _ (bind_Ok _ (get_bert_synonyms_trace env (firstn 3 keywords) t))).
  reflexivity.
Qed.

Lemma first_encountered_In (env : Collaborators) (keywords : list string) (s : string) :
  In s (first_encountered env keywords) <->
  exists k, In k keywords /\ In s (accepted env k).
Proof.
  unfold first_encountered. rewrite keep_first_In, in_concat. split.
  - intros [(l & Hl & Hs) _]. apply in_map_iff in Hl as (k & <- & Hk). eauto.
  - intros (k & Hk & Hs). split; [|intros []].
    exists (accepted env k). split; [apply in_map, Hk | exact Hs].
Qed.

Lemma accepted_above_threshold (env : Collaborators) (keyword s : string) :
  In s (accepted env keyword) ->
  exists candidates similarities x,
    wordnet_synonyms env keyword = Ok candidates /\
    similarity env (keyword :: candidates) = Ok similarities /\
    In (s, x) (combine candidates similarities) /\ (0.6 <? x)%float = true.
Proof.
  unfold accepted.
  destruct (wordnet_synonyms env keyword) as [[|c cs]|e]; try (intros []).
  destruct (similarity env (keyword :: c :: cs)) as [sims|e] eqn:E; try (intros []).
  intros H. apply valid_synonyms_In in H as (x & H1 & H2).
  exists (c :: cs), sims, x. auto.
Qed.

(** X8. The list [get_bert_synonyms] returns has no repetition, and it holds a
    synonym exactly when some keyword has it as a candidate whose
    similarity to the keyword is above 0.6. *)
Theorem expanded_synonyms_pass_threshold (env : Collaborators) (keywords : list string)
  (t : trace) :
  set_iter_ok env ->
  exists synonyms,
    fst (get_bert_synonyms env keywords t) = Ok synonyms /\
    NoDup synonyms /\
    (forall s, In s synonyms <-> exists k, In k keywords /\ In s (accepted env k)) /\
    (forall s, In s synonyms ->
       exists k candidates similarities x,
         In k keywords /\
         wordnet_synonyms env k = Ok candidates /\
         similarity env (k :: candidates) = Ok similarities /\
         In (s, x) (combine candidates similarities) /\ (0.6 <? x)%float = true).
Proof.
  intros Hset. rewrite get_bert_synonyms_trace. simpl.
  pose proof (Hset _ (keep_first_NoDup [] (List.concat (map (accepted env) keywords))))
    as P. fold (first_encountered env keywords) in P.
  assert (forall s, In s (set_iter env (first_encountered env keywords)) <->
                    exists k, In k keywords /\ In s (accepted env k)) as Hin.
  { intros s. rewrite <- first_encountered_In. split; apply Permutation_in.
    - exact P.
    - symmetry. exact P. }
  eexists. split; [reflexivity|]. split; [|split].
  - apply (Permutation_NoDup (Permutation_sym P)). apply keep_first_NoDup.
  - exact Hin.
  - intros s Hs. apply Hin in Hs as (k & Hk & Hs).
    destruct (accepted_above_threshold _ _ _ Hs) as (c & sims & x & H1 & H2 & H3 & H4).
    exists k, c, sims, x. auto.
Qed.

Lemma expanded_synonyms_pass_threshold_witness :
  exists synonyms,
    fst (get_bert_synonyms
           (Demo.env Demo.hash_order Demo.found Demo.emotions []) ["happy"; "sad"] [])
    = Ok synonyms /\
    NoDup synonyms.
Proof.
  destruct (expanded_synonyms_pass_threshold
              (Demo.env Demo.hash_order Demo.found Demo.emotions []) ["happy"; "sad"] []
              (hash_order_ok Demo.found Demo.emotions []))
    as (synonyms & E & Hn & _).
  exists synonyms. split; [exact E | exact Hn].
Defined.

(** X9. A keyword for which the dictionary or the similarity service raises
    adds no synonym and does not stop the loop: the synonyms are those of
    the other keywords, and one line is printed for the keyword. *)
Theorem failing_keyword_is_isolated (env : Collaborators) (before after : list string)
  (keyword : string) (e : exn) (t : trace) :
  wordnet_synonyms env keyword = Raise e \/
  (exists candidates,
      wordnet_synonyms env keyword = Ok candidates /\ candidates <> [] /\
      similarity env (keyword :: candidates) = Raise e) ->
  fst (get_bert_synonyms env (before ++ keyword :: after) t) =
  fst (get_bert_synonyms env (before ++ after) t) /\
  In (synonym_error keyword e)
     (snd (get_bert_synonyms env (before ++ keyword :: after) t)).
Proof.
  intros H.
  assert (accepted env keyword = [] /\ In (synonym_error keyword e) (round_events env keyword))
    as [Ha He].
  { unfold accepted, round_events.
    destruct H as [-> | (candidates & -> & Hne & ->)].
    - split; [reflexivity | simpl; auto].
    - destruct candidates; [contradiction|]. split; [reflexivity | simpl; auto]. }
  rewrite !get_bert_synonyms_trace. simpl. split.
  - unfold first_encountered. rewrite !map_app, !concat_app. simpl. rewrite Ha.
    reflexivity.
  - rewrite map_app, concat_app. simpl.
    rewrite !in_app_iff. right. right. left. exact He.
Qed.

Lemma failing_keyword_is_isolated_witness :
  fst (get_bert_synonyms (Demo.env Demo.insertion_order Demo.found Demo.emotions [])
         (["happy"] ++ "broken" :: ["sad"]) []) =
  fst (get_bert_synonyms (Demo.env Demo.insertion_order Demo.found Demo.emotions [])
         (["happy"] ++ ["sad"]) []) /\
  In (synonym_error "broken" (Exception "LookupError" "no corpus"))
     (snd (get_bert_synonyms (Demo.env Demo.insertion_order Demo.found Demo.emotions [])
             (["happy"] ++ "broken" :: ["sad"]) [])).
Proof.
  apply (failing_keyword_is_isolated
           (Demo.env Demo.insertion_order Demo.found Demo.emotions [])
           ["happy"] ["sad"] "broken" (Exception "LookupError" "no corpus") []).
  left. reflexivity.
Defined.

Lemma round_events_wordnet (env : Collaborators) (keyword : string) :
  filter is_wordnet (round_events env keyword) = [EvWordnet keyword] /\
  never is_http_get (round_events env keyword).
Proof.
  unfold round_events, never, synonym_error.
  destruct (wordnet_synonyms env keyword) as [[|c cs]|e]; simpl; auto.
  destruct (similarity env (keyword :: c :: cs)); simpl; auto.
Qed.

Lemma rounds_wordnet (env : Collaborators) (keywords : list string) :
  filter is_wordnet (List.concat (map (round_events env) keywords))
  = map EvWordnet keywords /\
  never is_http_get (List.concat (map (round_events env) keywords)).
Proof.
  induction keywords as [|k ks [IH1 IH2]]; simpl; [split; reflexivity|].
  destruct (round_events_wordnet env k) as [H1 H2].
  unfold never in *. rewrite filter_app, forallb_app, H1, H2, IH1, IH2.
  split; reflexivity.
Qed.

(** X10. To formulate the query the dictionary is asked once for each of the
    first three keywords, in order, and for nothing else; the keywords
    after the third play no part, and no HTTP request is sent. *)
Theorem primary_terms_looked_up_once (env : Collaborators) (keywords : list string)
  (t : trace) :
  exists added,
    snd (formulate_search_query env keywords t) = t ++ added /\
    filter is_wordnet added = map EvWordnet (firstn 3 keywords) /\
    (List.length (filter is_wordnet added) <= 3)%nat /\
    never is_http_get added /\
    formulate_search_query env keywords t =
    formulate_search_query env (firstn 3 keywords) t.
Proof.
  exists (List.concat (map (round_events env) (firstn 3 keywords))).
  destruct (rounds_wordnet env (firstn 3 keywords)) as [H1 H2].
  split; [apply formulate_search_query_trace|].
  split; [exact H1|]. split; [|split; [exact H2|]].
  - rewrite H1, length_map. apply firstn_le_length.
  - unfold formulate_search_query, query_terms. rewrite firstn_firstn. reflexivity.
Qed.

(** X11. Fetching the articles sends exactly one HTTP request: to the search
    URL, for the formulated query, which has at most 300 characters, with
    the fixed field list and the limit 10. *)
Theorem single_bounded_request (env : Collaborators) (txt : string)
  (keywords : list string) (t : trace) :
  exists query before prints,
    fst (formulate_search_query env keywords t) = Ok query /\
    (String.length query <= 300)%nat /\
    snd (fetch_academic_articles env txt keywords t) =
    t ++ before
      ++ EvHttpGet "https://api.semanticscholar.org/graph/v1/paper/search" query
                   "title,authors,year,url,abstract" 10
      :: prints /\
    never is_http_get before /\ never is_http_get prints.
Proof.
  destruct (fetch_academic_articles_eq env txt keywords t)
    as (query & t1 & prints & Hq & Hf & Hp).
  destruct (rounds_wordnet env (firstn 3 keywords)) as [_ Hb].
  exists query, (List.concat (map (round_events env) (firstn 3 keywords))), prints.
  pose proof (formulate_search_query_trace env keywords t) as Ht.
  rewrite Hq in Ht. simpl in Ht. subst t1.
  rewrite Hq, Hf. simpl. rewrite <- app_assoc.
  repeat split; auto.
  unfold formulate_search_query in Hq.
  destruct (query_terms_eq env keywords t) as (expanded & t' & _ & E).
  rewrite (bind_Ok _ E) in Hq. inversion Hq. apply slice_to_length.
Qed.

(** X12. Unless [find_sources] is true, an admitted request calls the two
    classifiers and the keyword extractor and nothing else: no dictionary
    lookup, no embedding, no HTTP request; a returned report has no
    academic sources. *)
Theorem no_sources_requested (env : Collaborators) (request : AnalysisRequest)
  (x_api_key : string) (t : trace) :
  find_sources request <> Some true ->
  (exists added,
      snd (analyze_emotion env request x_api_key t) = t ++ added /\
      forallb is_classifier_call added = true) /\
  (forall report,
      fst (analyze_emotion env request x_api_key t) = Returned report ->
      academic_sources report = []).
Proof.
  intros Hf.
  assert (forall ks, wants_sources request ks = false) as Hw.
  { intros ks. unfold wants_sources.
    destruct (find_sources request) as [[|]|]; [contradiction | |]; reflexivity. }
  destruct (admitted env request x_api_key) eqn:Ha.
  - rewrite (analyze_emotion_admitted _ _ _ _ Ha), build_report_unfold.
    destruct (emotion_classifier env _) as [es|e];
      [|split; [eexists; split; reflexivity | discriminate]].
    destruct (sentiment_analyzer env _) as [sent|e];
      [|split; [eexists; split; reflexivity | discriminate]].
    destruct (extract_keywords env _) as [extracted|e];
      [|split; [eexists; split; reflexivity | discriminate]].
    rewrite Hw.
    destruct (report_of _ _ _ _) as [r|e] eqn:E;
      [|split; [eexists; split; reflexivity | discriminate]].
    split; [eexists; split; reflexivity|].
    intros report Hr. simpl in Hr. inversion Hr; subst.
    apply report_of_inv in E as (top & rest & d & papers & _ & _ & Hp & ->).
    simpl. rewrite compose_papers_nil in Hp. inversion Hp. reflexivity.
  - destruct (analyze_emotion_rejected _ request _ t Ha) as (error & E & _).
    rewrite E. split; [|discriminate].
    exists []. rewrite app_nil_r. split; reflexivity.
Qed.

Lemma no_sources_requested_witness :
  (exists added,
      snd (analyze_emotion
             (Demo.env Demo.insertion_order Demo.found Demo.emotions ["happy"; "sad"])
             {| text := "I am happy"; find_sources := Some false |} "secret" [])
      = [] ++ added /\
      forallb is_classifier_call added = true).
Proof.
  destruct (no_sources_requested
              (Demo.env Demo.insertion_order Demo.found Demo.emotions ["happy"; "sad"])
              {| text := "I am happy"; find_sources := Some false |} "secret" [])
    as [H _]; [discriminate | exact H].
Defined.

(* ----------------------------------------------------------------- *)
(** ** The query as a string *)

Lemma startswith_app (p s : string) : PyStr.startswith p (p ++ s) = true.
Proof.
  induction p as [|c p IH]; simpl; [reflexivity|].
  rewrite Ascii.eqb_refl. exact IH.
Qed.

Lemma startswith_refl (p : string) : PyStr.startswith p p = true.
Proof.
  induction p as [|c p IH]; simpl; [reflexivity|].
  rewrite Ascii.eqb_refl. exact IH.
Qed.

Lemma startswith_cons_app (a p s : string) :
  PyStr.startswith p s = true -> PyStr.startswith (a ++ p) (a ++ s) = true.
Proof.
  intros H. induction a as [|c a IH]; simpl; [exact H|].
  rewrite Ascii.eqb_refl. exact IH.
Qed.

Lemma join_startswith (sep : string) (l1 l2 : list string) :
  PyStr.startswith (PyStr.join sep l1) (PyStr.join sep (l1 ++ l2)) = true.
Proof.
  unfold PyStr.join. induction l1 as [|x l1 IH]; [reflexivity|].
  destruct l1 as [|y l1].
  - simpl. destruct l2; [apply startswith_refl | apply startswith_app].
  - change (String.concat sep ((x :: y :: l1) ++ l2))
      with (x ++ sep ++ String.concat sep ((y :: l1) ++ l2)%list)%string.
    change (String.concat sep (x :: y :: l1))
      with (x ++ sep ++ String.concat sep (y :: l1))%string.
    apply startswith_cons_app, startswith_cons_app, IH.
Qed.

Lemma startswith_slice (p s : string) (n : nat) :
  PyStr.startswith p s = true -> (String.length p <= n)%nat ->
  PyStr.startswith p (PyStr.slice_to n s) = true.
Proof.
  unfold PyStr.slice_to. revert s n. induction p as [|c p IH]; intros s n H Hn.
  - reflexivity.
  - destruct s as [|d s]; [discriminate|]. simpl in *.
    destruct n as [|n]; [lia|]. simpl.
    apply andb_prop in H as [H1 H2]. rewrite H1. apply IH; [exact H2 | lia].
Qed.

(** X13. For at most 3 pairwise distinct keywords whose joined text fits in 300
    characters, the query begins with the keywords joined by spaces. *)
Theorem query_starts_with_keywords (env : Collaborators) (keywords : list string)
  (t : trace) :
  (List.length keywords <= 3)%nat ->
  NoDup keywords ->
  (String.length (PyStr.join " " keywords) <= 300)%nat ->
  exists query,
    fst (formulate_search_query env keywords t) = Ok query /\
    PyStr.startswith (PyStr.join " " keywords) query = true.
Proof.
  intros Hlen Hnd Hfit.
  destruct (query_terms_eq env keywords t) as (expanded & t' & _ & E).
  unfold formulate_search_query. rewrite (bind_Ok _ E). unfold ret. cbn [fst].
  eexists. split; [reflexivity|].
  rewrite (firstn_all2 (n := 3) keywords) by exact Hlen.
  rewrite keep_first_app, (keep_first_NoDup_id _ Hnd).
  apply startswith_slice; [apply join_startswith | exact Hfit].
Qed.

Lemma query_starts_with_keywords_witness :
  exists query,
    fst (formulate_search_query
           (Demo.env Demo.hash_order Demo.found Demo.emotions []) ["happy"; "sad"] [])
    = Ok query /\
    PyStr.startswith "happy sad" query = true.
Proof.
  apply (query_starts_with_keywords
           (Demo.env Demo.hash_order Demo.found Demo.emotions []) ["happy"; "sad"] []).
  - simpl. lia.
  - repeat constructor; simpl; intuition discriminate.
  - simpl. lia.
Defined.

(* ----------------------------------------------------------------- *)
(** ** Further properties of the emotion report *)

(** X14. A higher score never gets a lower intensity. *)
Theorem intensity_monotone (s1 s2 : float) :
  (s1 <=? s2)%float = true ->
  (intensity_rank (get_emotional_intensity s1)
   <= intensity_rank (get_emotional_intensity s2))%nat.
Proof.
  intros H.
  assert (forall c, (c <=? s1)%float = true -> (c <=? s2)%float = true) as Hc
    by (intros c Hc; apply (float_leb_trans c s1 s2); assumption).
  unfold get_emotional_intensity.
  destruct (0.9 <=? s1)%float eqn:A9; [rewrite (Hc _ A9); vm_compute; lia|].
  destruct (0.7 <=? s1)%float eqn:A7.
  { rewrite (Hc _ A7). destruct (0.9 <=? s2)%float; vm_compute; lia. }
  destruct (0.5 <=? s1)%float eqn:A5.
  { rewrite (Hc _ A5).
    destruct (0.9 <=? s2)%float; [vm_compute; lia|].
    destruct (0.7 <=? s2)%float; vm_compute; lia. }
  change (intensity_rank "low") with 0%nat. lia.
Qed.

Lemma intensity_monotone_witness :
  (intensity_rank (get_emotional_intensity 0.69)
   <= intensity_rank (get_emotional_intensity 0.7))%nat.
Proof. apply (intensity_monotone 0.69 0.7). reflexivity. Defined.

Lemma filter_head_split {A} (p : A -> bool) (l : list A) (x : A) (f : list A) :
  filter p l = x :: f ->
  exists l1 l2, l = l1 ++ x :: l2 /\ forallb (fun y => negb (p y)) l1 = true.
Proof.
  induction l as [|y l IH]; simpl; [discriminate|].
  destruct (p y) eqn:E.
  - intros H. inversion H; subst. exists [], l. split; reflexivity.
  - intros H. destruct (IH H) as (l1 & l2 & -> & Hl1).
    exists (y :: l1), l2. split; [reflexivity|]. simpl. rewrite E, Hl1. reflexivity.
Qed.

Lemma float_leb_neq_ltb (x y : float) :
  (x <=? y)%float = true -> (x =? y)%float = false -> (x <? y)%float = true.
Proof. intros H1 H2. float_order. Qed.

Lemma float_eqb_refl (x : float) : PrimFloat.is_nan x = false -> (x =? x)%float = true.
Proof. intros H. float_order. Qed.

(** X15. When several emotions share the top score, the primary emotion is the
    one the classifier listed first: every entry before it scores strictly
    less, and no entry scores more. *)
Theorem primary_is_first_of_the_best (es : list EmotionScore) :
  es <> [] -> Forall scored es ->
  exists top rest earlier later,
    sort_emotions es = top :: rest /\
    es = earlier ++ top :: later /\
    (forall e, In e earlier -> (score e <? score top)%float = true) /\
    (forall e, In e later -> (score e <=? score top)%float = true).
Proof.
  intros Hne Hes.
  pose proof (sort_emotions_descending es Hes) as Hs.
  pose proof (sort_emotions_scored es Hes) as Hg.
  pose proof (sort_emotions_perm es) as Hp.
  destruct (sort_emotions es) as [|top rest] eqn:E.
  { apply (proj1 (sort_emotions_nil es)) in E. contradiction. }
  inversion Hg as [|? ? Gtop _]; subst.
  assert (forall e, In e es -> (score e <=? score top)%float = true) as Hmax.
  { intros e He. apply (Permutation_in _ (Permutation_sym Hp)) in He.
    inversion Hs as [|? ? _ Hall]; subst.
    destruct He as [<- | He]; [apply float_leb_refl; assumption|].
    rewrite Forall_forall in Hall. apply Hall, He. }
  pose proof (sort_emotions_stable top es Gtop Hes) as Hst.
  rewrite E in Hst. simpl in Hst. rewrite (float_eqb_refl _ Gtop) in Hst.
  symmetry in Hst. apply filter_head_split in Hst as (earlier & later & -> & Hle).
  exists top, rest, earlier, later. split; [reflexivity|]. split; [reflexivity|].
  rewrite forallb_forall in Hle. split.
  - intros e He. apply float_leb_neq_ltb.
    + apply Hmax. rewrite in_app_iff. left. exact He.
    + apply negb_true_iff. apply Hle, He.
  - intros e He. apply Hmax. rewrite in_app_iff. right. right. exact He.
Qed.

Lemma primary_is_first_of_the_best_witness :
  exists top rest earlier later,
    sort_emotions Demo.tied_emotions = top :: rest /\
    Demo.tied_emotions = earlier ++ top :: later /\
    (forall e, In e earlier -> (score e <? score top)%float = true) /\
    (forall e, In e later -> (score e <=? score top)%float = true).
Proof.
  apply (primary_is_first_of_the_best Demo.tied_emotions).
  - discriminate.
  - repeat constructor.
Defined.

(** X16. The report lists every emotion of the classifier once: the primary one
    is the head of the ranking, the secondary ones are the rest of it in
    order, and together they carry the classifier's labels. *)
Theorem report_lists_every_emotion (es : list EmotionScore) (sent : string * float)
  (keywords : list string) (sources : pyval) (report : Report) :
  report_of (sort_emotions es) sent keywords sources = Ok report ->
  exists top rest,
    sort_emotions es = top :: rest /\
    fst (fst (primary_emotion report)) = label top /\
    secondary_emotions report
    = map (fun e => (label e, PyFloat.round (score e) 3)) rest /\
    Permutation (fst (fst (primary_emotion report))
                 :: map fst (secondary_emotions report))
                (map label es) /\
    S (List.length (secondary_emotions report)) = List.length es.
Proof.
  intros H. apply report_of_inv in H as (top & rest & d & papers & E & _ & _ & ->).
  exists top, rest. simpl. split; [exact E|]. split; [reflexivity|].
  split; [reflexivity|].
  pose proof (sort_emotions_perm es) as Hp. rewrite E in Hp.
  split.
  - rewrite map_map. simpl.
    change (label top :: map (fun x => label x) rest) with (map label (top :: rest)).
    apply Permutation_map, Hp.
  - rewrite length_map. apply (Permutation_length Hp).
Qed.

Lemma report_lists_every_emotion_witness :
  exists top rest,
    sort_emotions Demo.tied_emotions = top :: rest /\
    label top = "joy" /\
    map label rest = ["surprise"; "fear"; "anger"].
Proof.
  destruct (report_of_defined (sort_emotions Demo.tied_emotions)
              ("POSITIVE", 0.9%float) [] (PList []) []) as (report & E & _);
    [discriminate | reflexivity |].
  destruct (report_lists_every_emotion Demo.tied_emotions ("POSITIVE", 0.9%float)
              [] (PList []) report E) as (top & rest & Hs & _).
  exists top, rest. split; [exact Hs|].
  vm_compute in Hs. inversion Hs. split; reflexivity.
Defined.

Lemma dict_set_fresh {V} (d : list (string * V)) (k : string) (v : V) :
  ~ In k (PyList.dict_keys d) -> PyList.dict_set d k v = d ++ [(k, v)].
Proof.
  unfold PyList.dict_keys. induction d as [|[k' v'] d IH]; intros H; simpl; [reflexivity|].
  destruct (String.eqb_spec k k') as [-> | _].
  - exfalso. apply H. left. reflexivity.
  - f_equal. apply IH. intros Hin. apply H. right. exact Hin.
Qed.

Lemma breakdown_keys (l : list EmotionScore) :
  PyList.dict_keys (breakdown l) = keep_first [] (map label l).
Proof.
  transitivity (PyList.set_update [] (map label l));
    [|rewrite set_update_keep_first; reflexivity].
  unfold breakdown, PyList.set_update.
  assert (forall d : list (string * float),
             PyList.dict_keys
               (fold_left (fun d e => PyList.dict_set d (label e)
                                        (PyFloat.round (score e) 3)) l d)
             = fold_left PyList.set_add (map label l) (PyList.dict_keys d)) as G.
  { induction l as [|e l IH]; intros d; simpl; [reflexivity|].
    rewrite IH, dict_keys_set. reflexivity. }
  apply (G []).
Qed.

(** X17. ["full_breakdown"] has one entry per label, in ranking order of the
    label's first occurrence; when the labels are pairwise distinct it is
    the ranking itself with the scores rounded to 3 decimals. *)
Theorem full_breakdown_entries (es : list EmotionScore) (sent : string * float)
  (keywords : list string) (sources : pyval) (report : Report) :
  report_of (sort_emotions es) sent keywords sources = Ok report ->
  map fst (full_breakdown report) = keep_first [] (map label (sort_emotions es)) /\
  NoDup (map fst (full_breakdown report)) /\
  (NoDup (map label es) ->
   full_breakdown report
   = map (fun e => (label e, PyFloat.round (score e) 3)) (sort_emotions es)).
Proof.
  intros H. apply report_of_inv in H as (top & rest & d & papers & _ & _ & _ & ->).
  simpl. split; [apply breakdown_keys|]. split.
  - change (map fst (breakdown (sort_emotions es)))
      with (PyList.dict_keys (breakdown (sort_emotions es))).
    rewrite breakdown_keys. apply keep_first_NoDup.
  - intros Hnd.
    assert (NoDup (map label (sort_emotions es))) as Hnd'.
    { apply (Permutation_NoDup (l := map label es)); [|exact Hnd].
      apply Permutation_map. symmetry. apply sort_emotions_perm. }
    unfold breakdown. generalize dependent (sort_emotions es). intros l Hl.
    assert (forall d : list (string * float),
               (forall e, In e l -> ~ In (label e) (PyList.dict_keys d)) ->
               fold_left (fun d e => PyList.dict_set d (label e)
                                       (PyFloat.round (score e) 3)) l d
               = d ++ map (fun e => (label e, PyFloat.round (score e) 3)) l) as G.
    { induction l as [|e l IH]; intros d0 Hd; simpl; [symmetry; apply app_nil_r|].
      inversion Hl as [|? ? Hx Hl']; subst.
      rewrite dict_set_fresh by (apply Hd; left; reflexivity).
      rewrite IH; [rewrite <- app_assoc; reflexivity | exact Hl' |].
      intros e' He'. unfold PyList.dict_keys. rewrite map_app, in_app_iff. simpl.
      intros [Hin | [Heq | []]].
      - apply (Hd e'); [right; exact He' | exact Hin].
      - apply Hx. rewrite Heq. apply in_map, He'. }
    apply (G []). intros e _ [].
Qed.

Lemma full_breakdown_entries_witness :
  exists report,
    report_of (sort_emotions Demo.emotions) ("POSITIVE", 0.9%float) [] (PList [])
    = Ok report /\
    map fst (full_breakdown report) = ["joy"; "sadness"].
Proof.
  destruct (report_of_defined (sort_emotions Demo.emotions)
              ("POSITIVE", 0.9%float) [] (PList []) []) as (report & E & _);
    [discriminate | reflexivity |].
  exists report. split; [exact E|].
  destruct (full_breakdown_entries Demo.emotions ("POSITIVE", 0.9%float)
              [] (PList []) report E) as (H & _).
  rewrite H. reflexivity.
Defined.

(* ----------------------------------------------------------------- *)
(** ** Further properties of the academic sources *)

Lemma author_names (ads : list (list (string * pyval))) :
  comprehension (fun a => py_get a "name" (PStr "")) (map PDict ads)
  = Ok (map (fun a => PyList.dict_get a "name" (PStr "")) ads).
Proof.
  induction ads as [|a ads IH]; simpl; [reflexivity|].
  rewrite IH. reflexivity.
Qed.

(** X18. A search result is normalised field by field: each field is the
    record's own value, or the default where the record has none
    ("Untitled", no author, "", "#", 0, 0); an author without a name gets
    the empty name, and the similarity is rounded to 2 decimals. *)
Theorem compose_paper_fields (d : list (string * pyval))
  (ads : list (list (string * pyval))) (r : pyval) :
  PyList.dict_get d "authors" (PList []) = PList (map PDict ads) ->
  py_round (PyList.dict_get d "similarity" (PInt 0)) 2 = Ok r ->
  compose_paper (PDict d) =
  Ok {| title := PyList.dict_get d "title" (PStr "Untitled");
        authors := map (fun a => PyList.dict_get a "name" (PStr "")) ads;
        year := PyList.dict_get d "year" (PStr "");
        url := PyList.dict_get d "url" (PStr "#");
        citationCount := PyList.dict_get d "citationCount" (PInt 0);
        paper_similarity := r |} /\
  (~ In "similarity" (map fst d) -> r = PInt 0) /\
  (~ In "title" (map fst d) ->
   PyList.dict_get d "title" (PStr "Untitled") = PStr "Untitled").
Proof.
  intros Ha Hr. split; [|split].
  - unfold compose_paper, rbind, py_get, iterate.
    rewrite Ha, author_names, Hr. reflexivity.
  - intros H. rewrite dict_get_absent in Hr by exact H. inversion Hr. reflexivity.
  - intros H. apply dict_get_absent, H.
Qed.

Lemma compose_paper_fields_witness :
  compose_paper Demo.paper =
  Ok {| title := PStr "On joy";
        authors := [PStr "A. Author"];
        year := PInt 2020;
        url := PStr "https://example.org/1";
        citationCount := PInt 0;
        paper_similarity := PInt 0 |}.
Proof.
  destruct (compose_paper_fields
              [("title", PStr "On joy");
               ("authors", PList [PDict [("name", PStr "A. Author")]]);
               ("year", PInt 2020);
               ("url", PStr "https://example.org/1")]
              [[("name", PStr "A. Author")]] (PInt 0) eq_refl eq_refl) as [E _].
  exact E.
Defined.

Lemma paper_ok_composes (v : pyval) :
  paper_ok v = true ->
  exists paper, compose_paper v = Ok paper /\ title paper = shown_title v.
Proof.
  destruct v as [| | | | | |d]; try discriminate. simpl. intros H.
  apply andb_prop in H as [Ha Hs].
  destruct (PyList.dict_get d "authors" (PList [])) as [| | | | |l|] eqn:Ea;
    try discriminate.
  assert (exists ads, l = map PDict ads) as (ads & ->).
  { clear Ea. induction l as [|a l IH]; [exists []; reflexivity|].
    simpl in Ha. apply andb_prop in Ha as [H1 H2].
    destruct a; try discriminate. destruct (IH H2) as (ads & ->).
    eexists (_ :: ads). reflexivity. }
  assert (exists r, py_round (PyList.dict_get d "similarity" (PInt 0)) 2 = Ok r)
    as (r & Hr).
  { destruct (PyList.dict_get d "similarity" (PInt 0)); try discriminate;
      simpl; eauto. }
  exists {| title := PyList.dict_get d "title" (PStr "Untitled");
            authors := map (fun a => PyList.dict_get a "name" (PStr "")) ads;
            year := PyList.dict_get d "year" (PStr "");
            url := PyList.dict_get d "url" (PStr "#");
            citationCount := PyList.dict_get d "citationCount" (PInt 0);
            paper_similarity := r |}.
  unfold compose_paper, rbind, py_get, iterate.
  rewrite Ea, author_names, Hr. split; reflexivity.
Qed.

(** X19. When every search result is well formed, the report gets one
    academic source per result, in the order of the results. *)
Theorem compose_papers_well_formed (papers : list pyval) :
  forallb paper_ok papers = true ->
  exists out,
    compose_papers (PList papers) = Ok out /\
    List.length out = List.length papers /\
    map title out = map shown_title papers.
Proof.
  unfold compose_papers, rbind, iterate.
  induction papers as [|v papers IH]; simpl; intros H.
  - exists []. repeat split; reflexivity.
  - apply andb_prop in H as [Hv Hp].
    destruct (paper_ok_composes v Hv) as (paper & -> & Ht).
    destruct (IH Hp) as (out & -> & Hlen & Htitles).
    exists (paper :: out). simpl. rewrite Hlen, Ht, Htitles. repeat split; reflexivity.
Qed.

Lemma compose_papers_well_formed_witness :
  exists out,
    compose_papers (PList [Demo.paper; PDict []]) = Ok out /\
    List.length out = 2%nat /\
    map title out = [PStr "On joy"; PStr "Untitled"].
Proof.
  apply (compose_papers_well_formed [Demo.paper; PDict []]). reflexivity.
Defined.

(** X20. A search result that is not a [dict] makes the whole list of academic
    sources fail with [AttributeError], however many well-formed results
    stand before it. *)
Theorem compose_papers_bad_entry (before after : list pyval) (v : pyval) :
  forallb paper_ok before = true ->
  type_name v <> "dict" ->
  compose_papers (PList (before ++ v :: after)) =
  Raise (Exception "AttributeError"
           ("'" ++ type_name v ++ "' object has no attribute 'get'")).
Proof.
  unfold compose_papers, rbind, iterate.
  induction before as [|b before IH]; simpl; intros H Hv.
  - destruct v; try reflexivity. exfalso. apply Hv. reflexivity.
  - apply andb_prop in H as [Hb Hp].
    destruct (paper_ok_composes b Hb) as (paper & -> & _).
    rewrite (IH Hp Hv). reflexivity.
Qed.

Lemma compose_papers_bad_entry_witness :
  compose_papers (PList ([Demo.paper] ++ PStr "oops" :: [])) =
  Raise (Exception "AttributeError" "'str' object has no attribute 'get'").
Proof.
  apply (compose_papers_bad_entry [Demo.paper] [] (PStr "oops")).
  - reflexivity.
  - discriminate.
Defined.

Lemma compose_papers_ordered (papers : list pyval) :
  forallb paper_ok papers = true ->
  exists out,
    compose_papers (PList papers) = Ok out /\
    map title out = map shown_title papers.
Proof.
  unfold compose_papers, rbind, iterate.
  induction papers as [|v papers IH]; simpl; intros H.
  - exists []. split; reflexivity.
  - apply andb_prop in H as [Hv Hp].
    destruct (paper_ok_composes v Hv) as (paper & -> & Ht).
    destruct (IH Hp) as (out & -> & Htitles).
    exists (paper :: out). simpl. rewrite Ht, Htitles. split; reflexivity.
Qed.

(** X21. End to end: for an admitted request with keywords, [find_sources]
    true and a non-empty classifier output, when the endpoint answers with
    a status outside 400..599 and an object whose ["data"] is a list of
    well-formed results, a report is returned whose academic sources are
    those results, one for one and in the endpoint's order. *)
Theorem report_with_sources (env : Collaborators) (request : AnalysisRequest)
  (x_api_key : string) (t : trace) (es : list EmotionScore) (sent : string * float)
  (extracted : list (string * float)) (status : Z) (d : list (string * pyval))
  (papers : list pyval) :
  admitted env request x_api_key = true ->
  find_sources request = Some true ->
  emotion_classifier env (PyStr.strip (text request)) = Ok es -> es <> [] ->
  sentiment_analyzer env (PyStr.strip (text request)) = Ok sent ->
  extract_keywords env (PyStr.strip (text request)) = Ok extracted ->
  extracted <> [] ->
  (forall q, requests_get env q = Response status (Some (PDict d))) ->
  (status < 400 \/ 600 <= status)%Z ->
  PyList.dict_get d "data" (PList []) = PList papers ->
  forallb paper_ok papers = true ->
  exists report,
    fst (analyze_emotion env request x_api_key t) = Returned report /\
    map title (academic_sources report) = map shown_title papers /\
    List.length (academic_sources report) = List.length papers.
Proof.
  intros Ha Hf Hes Hne Hsent Hk Hkne Hreply Hstatus Hdata Hok.
  assert (sort_emotions es <> []) as Hs by (rewrite sort_emotions_nil; exact Hne).
  assert (wants_sources request (map fst extracted) = true) as Hw.
  { unfold wants_sources. rewrite Hf. destruct extracted; [contradiction | reflexivity]. }
  destruct (compose_papers_ordered papers Hok) as (out & Hout & Htitles).
  destruct (report_of_defined _ sent (map fst extracted) (PList papers) out Hs Hout)
    as (report & E & Hp).
  rewrite (analyze_emotion_admitted _ _ _ _ Ha), build_report_unfold, Hes, Hsent, Hk, Hw.
  destruct (fetch_academic_articles_eq env (PyStr.strip (text request))
              (map fst extracted) (t ++ calls3 (PyStr.strip (text request))))
    as (query & t1 & prints & _ & Hfetch & _).
  unfold bind. rewrite Hfetch, Hreply. unfold search_result.
  assert (((400 <=? status) && (status <? 600))%Z = false) as ->
    by (apply andb_false_iff; rewrite Z.leb_gt, Z.ltb_ge; lia).
  simpl. rewrite Hdata. unfold lift. rewrite E.
  exists report. simpl. rewrite Hp.
  split; [reflexivity|]. split; [exact Htitles|].
  rewrite <- (length_map title out), Htitles, length_map. reflexivity.
Qed.

Lemma report_with_sources_witness :
  exists report,
    fst (analyze_emotion
           (Demo.env Demo.insertion_order Demo.found Demo.emotions ["happy"; "sad"])
           Demo.request "secret" []) = Returned report /\
    map title (academic_sources report) = [PStr "On joy"] /\
    List.length (academic_sources report) = 1%nat.
Proof.
  apply (report_with_sources
           (Demo.env Demo.insertion_order Demo.found Demo.emotions ["happy"; "sad"])
           Demo.request "secret" [] Demo.emotions ("POSITIVE", 0.9987%float)
           [("happy", 0.5%float); ("sad", 0.5%float)] 200
           [("total", PInt 1); ("data", PList [Demo.paper])] [Demo.paper]).
  - reflexivity.
  - reflexivity.
  - reflexivity.
  - discriminate.
  - reflexivity.
  - reflexivity.
  - discriminate.
  - reflexivity.
  - left. lia.
  - reflexivity.
  - reflexivity.
Defined.
